(** * OncoVector: the diagnostic pipeline of [App.tsx]

    A shallow embedding of the controller [runAnalysis] and of the pieces
    of component state it drives ([processingStage], [error],
    [analysisResult], [step]), followed by the properties of the pipeline
    that the specification states.

    Conventions.
    - A JavaScript string is the list of its UTF-16 code units.
    - React state is a record; a state setter is a state transformer, and
      the functional updaters [prev => ({...prev, ...})] are functions on
      the previous value, applied in program order.
    - The functions imported from [./services/] are parameters: each
      awaited call settles, either resolving with a value or rejecting with
      a thrown value.
    - The world also carries three traces that the code leaves behind but
      does not store: every value written to [processingStage] (what a
      render can show is among them), every [console.error] line and
      every service call. *)

From Stdlib Require Import String Ascii DecimalString.
From Stdlib Require Import List NArith ZArith Bool Lia Sorted.
Import ListNotations.

Set Implicit Arguments.

(* ================================================================== *)
(** ** JavaScript strings *)

Module Js.

Definition str := list N.

(** A string literal of the source, as code units. *)
Definition lit (s : string) : str := map N_of_ascii (list_ascii_of_string s).
Arguments lit s%_string.

(** [WhiteSpace] and [LineTerminator] of ECMAScript: what
    [String.prototype.trim] removes. *)
Definition isWhiteSpace (c : N) : bool :=
  match c with
  | 9 | 10 | 11 | 12 | 13 | 32 | 160 => true
  | 5760 => true                         (* U+1680 *)
  | 8232 | 8233 => true                  (* U+2028, U+2029 *)
  | 8239 | 8287 | 12288 | 65279 => true  (* U+202F, U+205F, U+3000, U+FEFF *)
  | _ => (8192 <=? c) && (c <=? 8202)    (* U+2000 .. U+200A *)
  end%N.

Fixpoint trimStart (s : str) : str :=
  match s with
  | [] => []
  | c :: r => if isWhiteSpace c then trimStart r else s
  end.

Definition trimEnd (s : str) : str := rev (trimStart (rev s)).

Definition trim (s : str) : str := trimEnd (trimStart s).

(** [ToBoolean] on a string: only the empty string is falsy. *)
Definition truthy (s : str) : bool :=
  match s with [] => false | _ :: _ => true end.

(** [`${n}`] for the length of an array. *)
Definition ofNat (n : nat) : str := lit (NilEmpty.string_of_uint (Nat.to_uint n)).

End Js.

(* ================================================================== *)
(** ** [types.ts] *)

(** [number] fields of the records below are only carried by the pipeline,
    never computed on. *)
Definition number := Z.

(** A browser [File]; the pipeline only hands it to the classifier. *)
Record File := { file_name : Js.str }.

Inductive Gender := Male | Female | Other.

Module CaseStudy.
Record t := {
  id : Js.str;
  title : Js.str;
  age : number;
  gender : Gender;
  symptoms : list Js.str;
  diagnosis : Js.str;
  outcome : Js.str;
  summary : Js.str;
  imageUrl : Js.str;
  visual_findings : Js.str;
  databaseSource : Js.str;
  verifiedBy : Js.str;
  relevanceScore : option number;
  sourceUrl : option Js.str
}.
End CaseStudy.

Record WebSource := { uri : Js.str; ws_title : Js.str }.

Record ScanAnalysis := {
  detected : bool;
  roiBox : number * number * number * number;
  tensorFeatures : list (Js.str * number)
}.

Record AnalysisResult := {
  riskScore : number;
  confidenceScore : number;
  missingInformation : list Js.str;
  visualEvidence : list Js.str;
  reasoning : Js.str;
  recommendedTests : list Js.str;
  potentialDiagnoses : list Js.str;
  matchedCases : list CaseStudy.t;
  webSources : list WebSource;
  scanAnalysis : option ScanAnalysis
}.

Record PatientData := {
  age : Js.str;
  gender : Js.str;
  symptoms : Js.str;
  history : Js.str;
  images : list File
}.

(* ================================================================== *)
(** ** Component state of [App] *)

Inductive Step := Input | Analyzing | Results.

Inductive StageId := vision | registry | retrieval | synthesis.

Module Stage.
(** The [processingStage] state: the progress record of the pipeline. *)
Record t := {
  step : StageId;
  label : Js.str;
  progress : Z;
  log : list Js.str
}.

(** [useState({ step: 'vision', label: 'Initializing...', progress: 0, log: [] })] *)
Definition initial : t :=
  {| step := vision; label := Js.lit "Initializing..."; progress := 0; log := [] |}.

(** [prev => ({ ...prev, step: s, label: l, progress: p })] *)
Definition enter (s : StageId) (l : Js.str) (p : Z) (prev : t) : t :=
  {| step := s; label := l; progress := p; log := log prev |}.

(** [prev => ({ ...prev, progress: p })] *)
Definition withProgress (p : Z) (prev : t) : t :=
  {| step := step prev; label := label prev; progress := p; log := log prev |}.

(** [prev => ({ ...prev, label: l, progress: p })] *)
Definition withLabel (l : Js.str) (p : Z) (prev : t) : t :=
  {| step := step prev; label := l; progress := p; log := log prev |}.

(** [xs.slice(-3)]: the last three elements, all of them when there are
    fewer. *)
Definition slice_last3 (xs : list Js.str) : list Js.str :=
  skipn (length xs - 3) xs.

(** [prev => ({...prev, log: [...prev.log.slice(-3), msg]})] *)
Definition pushLog (msg : Js.str) (prev : t) : t :=
  {| step := step prev; label := label prev; progress := progress prev;
     log := slice_last3 (log prev) ++ [msg] |}.
End Stage.

(** Modelled from the spec: an entry of the list that the registry health
    probe resolves with; [App.tsx] stores it as [any[]] and never looks
    inside. *)
Inductive NodeStatus := online | degraded | offline.

Record HealthNode := { nodeName : Js.str; status : NodeStatus; latencyMs : Z }.

(** The [useState] cells of [App] that the handlers below read or write;
    [userImagePreview], an object URL for rendering, is left out. *)
Record AppState := {
  step : Step;
  patientData : PatientData;
  analysisResult : option AnalysisResult;
  error : option Js.str;
  systemHealth : list HealthNode;
  processingStage : Stage.t
}.

(** The state [App] mounts with. *)
Definition emptyPatient : PatientData :=
  {| age := []; gender := Js.lit "Female"; symptoms := []; history := [];
     images := [] |}.

Definition initialApp : AppState :=
  {| step := Input; patientData := emptyPatient; analysisResult := None;
     error := None; systemHealth := []; processingStage := Stage.initial |}.

(* ================================================================== *)
(** ** Thrown values, services, the world *)

(** What a rejected promise carries: an [Error] object with its [message],
    or any other value. *)
Inductive Thrown := ErrorObj (message : Js.str) | NotAnError.

Inductive Outcome (A : Type) := Resolved (a : A) | Rejected (e : Thrown).
Arguments Resolved {A} a.
Arguments Rejected {A} e.

(** The imports from [./services/mockVectorDb] and
    [./services/geminiService]. [images[0]] of an empty array is
    [undefined], hence the [option]. *)
Record Services := {
  identifyAnatomyFromImage : option File -> Outcome Js.str;
  getRegistryHealth : unit -> Outcome (list HealthNode);
  retrieveSimilarCases : Js.str -> Outcome (list CaseStudy.t);
  analyzePatientCase : PatientData -> list CaseStudy.t -> Outcome AnalysisResult
}.

Inductive Call :=
| CallIdentifyAnatomy (f : option File)
| CallRegistryHealth
| CallRetrieve (query : Js.str)
| CallAnalyze (p : PatientData) (cases : list CaseStudy.t).

(** A service call as it happened: what was called, the progress record
    at that moment, and the thrown value if the call rejected. *)
Record CallEvent := {
  what : Call;
  at_stage : Stage.t;
  rejected : option Thrown
}.

Record World := {
  app : AppState;
  writes : list Stage.t;                 (* oldest first *)
  console : list (Js.str * Thrown);      (* oldest first *)
  calls : list CallEvent                 (* oldest first *)
}.

Definition start (a : AppState) : World :=
  {| app := a; writes := []; console := []; calls := [] |}.

(* ================================================================== *)
(** ** A state monad with thrown values *)

Inductive Completion (A : Type) := Normal (a : A) | Abrupt (e : Thrown).
Arguments Normal {A} a.
Arguments Abrupt {A} e.

Definition M (A : Type) : Type := World -> Completion A * World.

Definition ret {A} (a : A) : M A := fun w => (Normal a, w).

Definition bind {A B} (m : M A) (k : A -> M B) : M B :=
  fun w =>
    match m w with
    | (Normal a, w') => k a w'
    | (Abrupt e, w') => (Abrupt e, w')
    end.

Declare Scope js_scope.
Delimit Scope js_scope with js.
Notation "x <- m ;; k" := (bind m (fun x => k))
  (at level 61, m at next level, right associativity) : js_scope.
Notation "m ;; k" := (bind m (fun _ => k))
  (at level 61, right associativity) : js_scope.
Local Open Scope js_scope.

(** [try { body } catch (e) { handler }] *)
Definition tryCatch {A} (body : M A) (handler : Thrown -> M A) : M A :=
  fun w =>
    match body w with
    | (Normal a, w') => (Normal a, w')
    | (Abrupt e, w') => handler e w'
    end.

Definition modifyApp (f : AppState -> AppState) : M unit :=
  fun w =>
    (Normal tt,
     {| app := f (app w); writes := writes w; console := console w;
        calls := calls w |}).

Definition getPatientData : M PatientData :=
  fun w => (Normal (patientData (app w)), w).

Definition setStep (s : Step) : M unit :=
  modifyApp (fun a =>
    {| step := s; patientData := patientData a;
       analysisResult := analysisResult a; error := error a;
       systemHealth := systemHealth a;
       processingStage := processingStage a |}).

Definition setError (e : option Js.str) : M unit :=
  modifyApp (fun a =>
    {| step := step a; patientData := patientData a;
       analysisResult := analysisResult a; error := e;
       systemHealth := systemHealth a;
       processingStage := processingStage a |}).

Definition setSystemHealth (h : list HealthNode) : M unit :=
  modifyApp (fun a =>
    {| step := step a; patientData := patientData a;
       analysisResult := analysisResult a; error := error a;
       systemHealth := h;
       processingStage := processingStage a |}).

Definition setAnalysisResult (r : option AnalysisResult) : M unit :=
  modifyApp (fun a =>
    {| step := step a; patientData := patientData a;
       analysisResult := r; error := error a;
       systemHealth := systemHealth a;
       processingStage := processingStage a |}).

Definition setPatientData (f : PatientData -> PatientData) : M unit :=
  modifyApp (fun a =>
    {| step := step a; patientData := f (patientData a);
       analysisResult := analysisResult a; error := error a;
       systemHealth := systemHealth a;
       processingStage := processingStage a |}).

(** [setProcessingStage(updater)]; the value written joins [writes]. *)
Definition setProcessingStage (f : Stage.t -> Stage.t) : M unit :=
  fun w =>
    let a := app w in
    let ps := f (processingStage a) in
    (Normal tt,
     {| app := {| step := step a; patientData := patientData a;
                  analysisResult := analysisResult a; error := error a;
                  systemHealth := systemHealth a;
                  processingStage := ps |};
        writes := writes w ++ [ps]; console := console w;
        calls := calls w |}).

(** [console.error(msg, e)] *)
Definition consoleError (msg : Js.str) (e : Thrown) : M unit :=
  fun w =>
    (Normal tt,
     {| app := app w; writes := writes w;
        console := console w ++ [(msg, e)]; calls := calls w |}).

(** [await service(...)], the service's answer being [o]. *)
Definition await {A} (c : Call) (o : Outcome A) : M A :=
  fun w =>
    let ev := {| what := c; at_stage := processingStage (app w);
                 rejected := match o with
                             | Resolved _ => None
                             | Rejected e => Some e
                             end |} in
    let w' := {| app := app w; writes := writes w; console := console w;
                 calls := calls w ++ [ev] |} in
    match o with
    | Resolved a => (Normal a, w')
    | Rejected e => (Abrupt e, w')
    end.

(** [await new Promise(r => setTimeout(r, ms))] *)
Definition sleep (ms : Z) : M unit := ret tt.

(* ================================================================== *)
(** ** [App.tsx]: the string literals of [runAnalysis] *)

Module Txt.
(* error messages *)
Definition noAge := Js.lit "Please provide patient age.".
Definition noEvidence :=
  Js.lit "Please provide either clinical symptoms OR upload diagnostic imagery.".
Definition unexpected := Js.lit "An unexpected error occurred".
(* stage labels *)
Definition booting := Js.lit "Booting Neural Engines...".
Definition analyzingVisual := Js.lit "Analyzing Visual Structures".
Definition skippingVision := Js.lit "Skipping Vision Layer".
Definition connecting := Js.lit "Connecting to Research Nodes".
Definition traversing := Js.lit "Traversing Vector Space".
Definition generating := Js.lit "Generating Clinical Synthesis".
Definition finalizing := Js.lit "Finalizing Report".
(* log lines *)
Definition logInit := Js.lit "> System init sequence started...".
Definition logResNet := Js.lit "> ResNet-50: Loading weights...".
Definition logAnatomy := Js.lit "> Anatomy Identified: ".
Definition logBypass :=
  Js.lit "> No image data provided. Bypassing vision stack.".
Definition logHandshake := Js.lit "> Handshake: NIH / TCIA / ISIC ...".
Definition logConnected := Js.lit "> Connection established: 12 Nodes Online".
Definition logQuerying := Js.lit "> Querying dense vector embeddings...".
Definition logRetrieved := Js.lit "> Retrieval complete: ".
Definition logCandidates := Js.lit " candidates found.".
Definition logReasoning :=
  Js.lit "> Gemini 3 Pro: Reasoning context window active...".
Definition logDone := Js.lit "> Output generated successfully.".
(* console *)
Definition couldNotIdentify := Js.lit "Could not identify anatomy".
(* retrieval query *)
Definition tagOpen := Js.lit "[PATIENT IMAGING ANATOMY: ".
Definition tagClose := Js.lit "] ".
Definition defaultQuery := Js.lit "visual anomaly suspected malignancy".
End Txt.

(* ================================================================== *)
(** ** [App.tsx]: the handlers *)

(** [const addLog = (msg) => setProcessingStage(prev => ...)] *)
Definition addLog (msg : Js.str) : M unit :=
  setProcessingStage (Stage.pushLog msg).

(** [err instanceof Error ? err.message : "An unexpected error occurred"] *)
Definition errorMessage (err : Thrown) : Js.str :=
  match err with
  | ErrorObj m => m
  | NotAnError => Txt.unexpected
  end.

(** [patientData.symptoms && patientData.symptoms.trim().length > 0] *)
Definition hasSymptoms (pd : PatientData) : bool :=
  Js.truthy (symptoms pd) && (0 <? List.length (Js.trim (symptoms pd)))%nat.

(** [patientData.images.length > 0] *)
Definition hasImages (pd : PatientData) : bool :=
  (0 <? List.length (images pd))%nat.

(** [`[PATIENT IMAGING ANATOMY: ${anatomyContext}] `] *)
Definition anatomyTag (anatomyContext : Js.str) : Js.str :=
  Txt.tagOpen ++ anatomyContext ++ Txt.tagClose.

(** Step 3 of [runAnalysis]: the retrieval query.
<<
      let query = patientData.symptoms || "";
      if (anatomyContext) {
          query = `[PATIENT IMAGING ANATOMY: ${anatomyContext}] ${query}`;
      } else if (!query.trim()) {
          query = "visual anomaly suspected malignancy";
      }
>> *)
Definition constructQuery (pd : PatientData) (anatomyContext : Js.str) : Js.str :=
  let query := if Js.truthy (symptoms pd) then symptoms pd else [] in
  if Js.truthy anatomyContext then anatomyTag anatomyContext ++ query
  else if negb (Js.truthy (Js.trim query)) then Txt.defaultQuery
  else query.

(** Step 1 of [runAnalysis]: the vision stage, which yields
    [anatomyContext]. Nothing after the assignment inside the inner [try]
    can throw, so the block yields the classifier's label and the handler
    the initial [""]. *)
Definition visionStage (svc : Services) (pd : PatientData) : M Js.str :=
  if hasImages pd then
    setProcessingStage (Stage.enter vision Txt.analyzingVisual 15) ;;
    addLog Txt.logResNet ;;
    tryCatch
      (anatomyContext <-
         await (CallIdentifyAnatomy (hd_error (images pd)))
               (identifyAnatomyFromImage svc (hd_error (images pd))) ;;
       addLog (Txt.logAnatomy ++ anatomyContext) ;;
       setProcessingStage (Stage.withProgress 30) ;;
       ret anatomyContext)
      (fun e =>
         consoleError Txt.couldNotIdentify e ;;
         ret [])
  else
    setProcessingStage (Stage.enter vision Txt.skippingVision 30) ;;
    addLog Txt.logBypass ;;
    sleep 800 ;;
    ret [].

(** The body of the outer [try] of [runAnalysis]. *)
Definition pipeline (svc : Services) (pd : PatientData) : M unit :=
  (* 1. Identify Anatomy *)
  anatomyContext <- visionStage svc pd ;;
  (* 2. Intaking Library status *)
  setProcessingStage (Stage.enter registry Txt.connecting 45) ;;
  addLog Txt.logHandshake ;;
  health <- await CallRegistryHealth (getRegistryHealth svc tt) ;;
  setSystemHealth health ;;
  addLog Txt.logConnected ;;
  (* 3. Construct Query *)
  setProcessingStage (Stage.enter retrieval Txt.traversing 60) ;;
  let query := constructQuery pd anatomyContext in
  (* 4. Simulate Vector Retrieval *)
  addLog Txt.logQuerying ;;
  similarCases <- await (CallRetrieve query) (retrieveSimilarCases svc query) ;;
  setProcessingStage (Stage.withProgress 75) ;;
  addLog (Txt.logRetrieved ++ Js.ofNat (List.length similarCases)
            ++ Txt.logCandidates) ;;
  (* 5. AI Reasoning *)
  setProcessingStage (Stage.enter synthesis Txt.generating 85) ;;
  addLog Txt.logReasoning ;;
  result <- await (CallAnalyze pd similarCases)
                  (analyzePatientCase svc pd similarCases) ;;
  setProcessingStage (Stage.withLabel Txt.finalizing 100) ;;
  addLog Txt.logDone ;;
  sleep 800 ;;
  setAnalysisResult (Some result) ;;
  setStep Results.

(** [{ step: 'vision', label: 'Booting Neural Engines...', progress: 5,
      log: ['> System init sequence started...'] }] *)
Definition bootStage : Stage.t :=
  {| Stage.step := vision;
     Stage.label := Txt.booting;
     Stage.progress := 5;
     Stage.log := [Txt.logInit] |}.

Definition runAnalysis (svc : Services) : M unit :=
  pd <- getPatientData ;;
  (* Validation *)
  if negb (Js.truthy (age pd)) then
    setError (Some Txt.noAge)
  else if negb (hasSymptoms pd) && negb (hasImages pd) then
    setError (Some Txt.noEvidence)
  else
    setStep Analyzing ;;
    setError None ;;
    setSystemHealth [] ;;
    (* Initial State *)
    setProcessingStage (fun _ => bootStage) ;;
    tryCatch
      (pipeline svc pd)
      (fun err =>
         setError (Some (errorMessage err)) ;;
         setStep Input).

(** [const reset = () => { ... }] *)
Definition reset : M unit :=
  setStep Input ;;
  setAnalysisResult None ;;
  setPatientData (fun _ => emptyPatient) ;;
  setSystemHealth [].

(** The form fields wired to [handleInputChange] (their [name]s). *)
Inductive Field := FieldAge | FieldGender | FieldSymptoms.

(** [setPatientData(prev => ({ ...prev, [name]: value }))] *)
Definition handleInputChange (name : Field) (value : Js.str) : M unit :=
  setPatientData (fun prev =>
    match name with
    | FieldAge =>
        {| age := value; gender := gender prev; symptoms := symptoms prev;
           history := history prev; images := images prev |}
    | FieldGender =>
        {| age := age prev; gender := value; symptoms := symptoms prev;
           history := history prev; images := images prev |}
    | FieldSymptoms =>
        {| age := age prev; gender := gender prev; symptoms := value;
           history := history prev; images := images prev |}
    end).

(** [if (files && files.length > 0) setPatientData(prev => ({ ...prev,
    images: Array.from(files) }))] *)
Definition handleFileChange (files : list File) : M unit :=
  if (0 <? List.length files)%nat then
    setPatientData (fun prev =>
      {| age := age prev; gender := gender prev; symptoms := symptoms prev;
         history := history prev; images := files |})
  else ret tt.

(** The world a click on "Run Multi-Modal Analysis" leaves, and the
    completion of the handler. *)
Definition exec (svc : Services) (a : AppState) : World :=
  snd (runAnalysis svc (start a)).

Definition completion (svc : Services) (a : AppState) : Completion unit :=
  fst (runAnalysis svc (start a)).

(* ================================================================== *)
(** ** [App.tsx]: what the views compute *)

(** [const stepIds = ['vision', 'registry', 'retrieval', 'synthesis']] *)
Definition stepIds : list StageId := [vision; registry; retrieval; synthesis].

Definition StageId_eqb (x y : StageId) : bool :=
  match x, y with
  | vision, vision | registry, registry
  | retrieval, retrieval | synthesis, synthesis => true
  | _, _ => false
  end.

(** [l.indexOf(x)]: the first position of [x], or -1. *)
Fixpoint indexOf (x : StageId) (l : list StageId) : Z :=
  match l with
  | [] => -1
  | y :: r =>
      if StageId_eqb y x then 0
      else let i := indexOf x r in if (i <? 0)%Z then -1 else (i + 1)%Z
  end.

(** The stepper of the analyzing view, for the step [sid]:
    [isActive = processingStage.step === s.id] *)
Definition isActive (ps : Stage.t) (sid : StageId) : bool :=
  StageId_eqb (Stage.step ps) sid.

(** [isCompleted = thisIndex < currentIndex ||
      (isActive && processingStage.progress >= (thisIndex + 1) * 25 - 5)] *)
Definition isCompleted (ps : Stage.t) (sid : StageId) : bool :=
  let currentIndex := indexOf (Stage.step ps) stepIds in
  let thisIndex := indexOf sid stepIds in
  (thisIndex <? currentIndex)%Z
  || (isActive ps sid
      && (Stage.progress ps >=? (thisIndex + 1) * 25 - 5)%Z).

Definition txtInitializing : Js.str := Js.lit "Initializing...".

(** [m.replace(/^> /, '')]: drop one leading "> ". *)
Definition stripPrompt (m : Js.str) : Js.str :=
  match m with
  | 62%N :: 32%N :: r => r
  | _ => m
  end.

(** [log[log.length - 1]]: the last element, [undefined] on the empty
    array. *)
Definition lastLine (log : list Js.str) : option Js.str :=
  match log with
  | [] => None
  | _ :: _ => nth_error log (List.length log - 1)
  end.

(** The status line of the analyzing view:
    [processingStage.log[processingStage.log.length - 1]
       ?.replace(/^> /, '') || "Initializing..."] *)
Definition statusLine (ps : Stage.t) : Js.str :=
  match lastLine (Stage.log ps) with
  | None => txtInitializing
  | Some m =>
      let shown := stripPrompt m in
      if Js.truthy shown then shown else txtInitializing
  end.

(** [s.split(sep)] for a separator of one code unit: the pieces between
    the separators, never an empty array. *)
Fixpoint split (sep : N) (s : Js.str) : list Js.str :=
  match s with
  | [] => [[]]
  | c :: r =>
      if (c =? sep)%N then [] :: split sep r
      else match split sep r with
           | piece :: pieces => (c :: piece) :: pieces
           | [] => [[c]]
           end
  end.

(** [pieces.join(sep)] *)
Fixpoint join (sep : N) (pieces : list Js.str) : Js.str :=
  match pieces with
  | [] => []
  | [piece] => piece
  | piece :: rest => piece ++ sep :: join sep rest
  end.

(** [arr.pop()]: the last element, [undefined] on the empty array. *)
Definition pop (pieces : list Js.str) : option Js.str :=
  match pieces with
  | [] => None
  | _ :: _ => Some (last pieces [])
  end.

Definition hyphen : N := 45%N.

(** The name of a neighbour in the scatter chart of
    [renderComparisonGraphs]: [`Case ${c.id.split('-').pop()}`]. *)
Definition scatterName (c : CaseStudy.t) : Js.str :=
  Js.lit "Case " ++
  match pop (split hyphen (CaseStudy.id c)) with
  | Some piece => piece
  | None => Js.lit "undefined"
  end.

(** [SafeRegistryImage]: its two [useState] cells, the two events of the
    [<img>] element, and what it renders. *)
Record ImageState := { img_error : bool; img_loading : bool }.

(** [useState(false)], [useState(true)] *)
Definition imageMounted : ImageState :=
  {| img_error := false; img_loading := true |}.

Inductive ImageEvent := ImgError | ImgLoad.

(** [onError={() => { setError(true); setLoading(false); }}],
    [onLoad={() => setLoading(false)}] *)
Definition onImageEvent (s : ImageState) (e : ImageEvent) : ImageState :=
  match e with
  | ImgError => {| img_error := true; img_loading := false |}
  | ImgLoad => {| img_error := img_error s; img_loading := false |}
  end.

Inductive ImageView := ImageUnavailable | ImageBehindPulse | ImageShown.

(** [if (error) return <placeholder/>]; otherwise the image, behind the
    pulse overlay while [loading]. *)
Definition imageView (s : ImageState) : ImageView :=
  if img_error s then ImageUnavailable
  else if img_loading s then ImageBehindPulse
  else ImageShown.

(* ================================================================== *)
(** ** Vocabulary of the properties *)

(** The validation of [runAnalysis], as one test: the handler gets past
    its two early [return]s exactly when [valid] holds. *)
Definition valid (pd : PatientData) : bool :=
  Js.truthy (age pd) && (hasSymptoms pd || hasImages pd).

(** The label the vision stage leaves in [anatomyContext]. *)
Definition visionLabel (svc : Services) (pd : PatientData) : Js.str :=
  if hasImages pd then
    match identifyAnatomyFromImage svc (hd_error (images pd)) with
    | Resolved l => l
    | Rejected _ => []
    end
  else [].

(** The two terminal outcomes of a run, read off the component state:
    the results view holding a report and no error, or the input view
    holding an error message. *)
Definition Done (f : AppState) (r : AnalysisResult) : Prop :=
  step f = Results /\ analysisResult f = Some r /\ error f = None.

Definition Failed (f : AppState) (e : Js.str) : Prop :=
  step f = Input /\ error f = Some e.

(** A service call other than the classifier's: its rejection reaches the
    outer [catch]. *)
Definition fatalCall (c : Call) : bool :=
  match c with
  | CallIdentifyAnatomy _ => false
  | CallRegistryHealth | CallRetrieve _ | CallAnalyze _ _ => true
  end.

(** [{ ...a, error: msg }]: the state a rejected click leaves. *)
Definition rejectedWith (a : AppState) (msg : Js.str) : AppState :=
  {| step := step a; patientData := patientData a;
     analysisResult := analysisResult a; error := Some msg;
     systemHealth := systemHealth a;
     processingStage := processingStage a |}.

(** The retrieval query as the specification words it: the symptoms, the
    default phrase standing in for them when they are empty, behind the
    anatomy tag when the vision stage produced a label. *)
Definition specQuery (pd : PatientData) (l : Js.str) : Js.str :=
  let body :=
    if Js.truthy (symptoms pd) then symptoms pd else Txt.defaultQuery in
  if Js.truthy l then anatomyTag l ++ body else body.

(** [m] keeps [I]: from a world in [I] it ends in a world in [I],
    however it completes. *)
Definition keeps {A} (I : World -> Prop) (m : M A) : Prop :=
  forall w, I w -> I (snd (m w)).

(** The log capacity, as an invariant: every record written so far and
    the current record hold at most four log lines. *)
Definition bounded (s : Stage.t) : Prop :=
  (List.length (Stage.log s) <= 4)%nat.

Definition LogsBounded (w : World) : Prop :=
  Forall bounded (writes w) /\ bounded (processingStage (app w)).

(** [runAnalysis] has no [setPatientData]: the form data survives every
    run. *)
Definition formIs (pd : PatientData) (w : World) : Prop :=
  patientData (app w) = pd.

(** What a written record shows of the pipeline's position. *)
Definition stamp (s : Stage.t) : StageId * Z :=
  (Stage.step s, Stage.progress s).

Inductive Ending := EndDone | EndFailed.

(** After the boot record: the three ways through the vision stage
    (no imagery; a label; a failed classifier) ... *)
Definition visionTraces : list (list (StageId * Z)) :=
  [ [(vision, 30); (vision, 30)];
    [(vision, 15); (vision, 15); (vision, 15); (vision, 30)];
    [(vision, 15); (vision, 15)] ]%Z.

(** ... and the four ways from the registry stage on: the probe, the
    retrieval or the synthesis rejects, or all resolve. *)
Definition laterTraces : list (list (StageId * Z) * Ending) :=
  [ ([(registry, 45); (registry, 45)], EndFailed);
    ([(registry, 45); (registry, 45); (registry, 45);
      (retrieval, 60); (retrieval, 60)], EndFailed);
    ([(registry, 45); (registry, 45); (registry, 45);
      (retrieval, 60); (retrieval, 60); (retrieval, 75); (retrieval, 75);
      (synthesis, 85); (synthesis, 85)], EndFailed);
    ([(registry, 45); (registry, 45); (registry, 45);
      (retrieval, 60); (retrieval, 60); (retrieval, 75); (retrieval, 75);
      (synthesis, 85); (synthesis, 85);
      (synthesis, 100); (synthesis, 100)], EndDone) ]%Z.

Definition runTraces : list (list (StageId * Z) * Ending) :=
  flat_map
    (fun v => map (fun r => ((vision, 5%Z) :: v ++ fst r, snd r)) laterTraces)
    visionTraces.

Definition ended (a f : AppState) (e : Ending) : Prop :=
  match e with
  | EndDone =>
      step f = Results /\ error f = None /\ exists r, analysisResult f = Some r
  | EndFailed =>
      step f = Input /\ (exists m, error f = Some m) /\
      analysisResult f = analysisResult a
  end.

(** Checks on a trace, decided by computation. *)
Fixpoint nondecreasing (l : list Z) : bool :=
  match l with
  | [] => true
  | x :: r =>
      match r with
      | [] => true
      | y :: _ => (x <=? y)%Z && nondecreasing r
      end
  end.

Definition stageBounds (sp : StageId * Z) : bool :=
  let p := snd sp in
  match fst sp with
  | vision => (5 <=? p) && (p <=? 30)
  | registry => (p =? 45)
  | retrieval => (60 <=? p) && (p <=? 75)
  | synthesis => (85 <=? p) && (p <=? 100)
  end%Z.

Definition isDone (e : Ending) : bool :=
  match e with EndDone => true | EndFailed => false end.

Definition traceChecks (te : list (StageId * Z) * Ending) : bool :=
  let ps := map snd (fst te) in
  nondecreasing ps
  && forallb (fun p => (5 <=? p) && (p <=? 100))%Z ps
  && forallb stageBounds (fst te)
  && match ps with p :: _ => (p =? 5)%Z | [] => false end
  && Bool.eqb (last ps 0 =? 100)%Z (isDone (snd te)).

(** The states of [App] that clicks and keystrokes can produce. The Run
    button is rendered in the input view only. *)
Inductive Reachable : AppState -> Prop :=
| reach_mount : Reachable initialApp
| reach_input (a : AppState) (name : Field) (value : Js.str) :
    Reachable a ->
    Reachable (app (snd (handleInputChange name value (start a))))
| reach_files (a : AppState) (files : list File) :
    Reachable a ->
    Reachable (app (snd (handleFileChange files (start a))))
| reach_run (a : AppState) (svc : Services) :
    Reachable a -> step a = Input ->
    Reachable (app (exec svc a))
| reach_reset (a : AppState) :
    Reachable a ->
    Reachable (app (snd (reset (start a)))).

(** The service behind a call. *)
Inductive ServiceId := SvcIdentify | SvcHealth | SvcRetrieve | SvcAnalyze.

Definition serviceOf (c : Call) : ServiceId :=
  match c with
  | CallIdentifyAnatomy _ => SvcIdentify
  | CallRegistryHealth => SvcHealth
  | CallRetrieve _ => SvcRetrieve
  | CallAnalyze _ _ => SvcAnalyze
  end.

(** The calls a run is set to make, in order. *)
Definition callPlan (pd : PatientData) : list ServiceId :=
  (if hasImages pd then [SvcIdentify] else [])
  ++ [SvcHealth; SvcRetrieve; SvcAnalyze].

(** The world when the pipeline proper begins: the analyzing view, the
    boot record written, no health list, no error. *)
Definition bootWorld (pd : PatientData) (r : option AnalysisResult) : World :=
  {| app := {| step := Analyzing; patientData := pd; analysisResult := r;
               error := None; systemHealth := [];
               processingStage := bootStage |};
     writes := [bootStage]; console := []; calls := [] |}.

(** An invariant of the form: every record written so far and the current
    one satisfy [Q]. *)
Definition AllStages (Q : Stage.t -> Prop) (w : World) : Prop :=
  Forall Q (writes w) /\ Q (processingStage (app w)).

(** A log line that is a "> " prompt and something after it. *)
Definition prompted (m : Js.str) : Prop :=
  exists body, m = 62%N :: 32%N :: body /\ body <> [].

Definition logPrompted (s : Stage.t) : Prop :=
  Stage.log s <> [] /\ Forall prompted (Stage.log s).

(** How many steps the stepper marks completed. *)
Definition completedCount (ps : Stage.t) : Z :=
  Z.of_nat (List.length (filter (isCompleted ps) stepIds)).

(** A record with a given stage and percent, and nothing else. *)
Definition stampRecord (sp : StageId * Z) : Stage.t :=
  {| Stage.step := fst sp; Stage.label := []; Stage.progress := snd sp;
     Stage.log := [] |}.

(* ================================================================== *)
(** ** Sample runs *)

Definition sampleReport : AnalysisResult :=
  {| riskScore := 72%Z; confidenceScore := 88%Z; missingInformation := [];
     visualEvidence := []; reasoning := Js.lit "demo";
     recommendedTests := []; potentialDiagnoses := [Js.lit "Melanoma"];
     matchedCases := []; webSources := []; scanAnalysis := None |}.

(** Services that all resolve; the classifier answers "Lung". *)
Definition demoServices : Services :=
  {| identifyAnatomyFromImage := fun _ => Resolved (Js.lit "Lung");
     getRegistryHealth := fun _ => Resolved [];
     retrieveSimilarCases := fun _ => Resolved [];
     analyzePatientCase := fun _ _ => Resolved sampleReport |}.

Definition withPatient (pd : PatientData) : AppState :=
  {| step := Input; patientData := pd; analysisResult := None;
     error := None; systemHealth := [];
     processingStage := Stage.initial |}.

(** Scenario A: symptoms only. *)
Definition patientA : PatientData :=
  {| age := Js.lit "55"; gender := Js.lit "Female";
     symptoms := Js.lit "irregular mole"; history := []; images := [] |}.

(** Scenario B: imagery only. *)
Definition patientB : PatientData :=
  {| age := Js.lit "40"; gender := Js.lit "Male"; symptoms := [];
     history := []; images := [ {| file_name := Js.lit "scan.png" |} ] |}.

Definition withAge (s : Js.str) : PatientData :=
  {| age := s; gender := gender patientA; symptoms := symptoms patientA;
     history := history patientA; images := images patientA |}.

(** The retrieval call of Scenario B, third in the run's trace. *)
Definition retrievalOfB : CallEvent :=
  nth 2 (calls (exec demoServices (withPatient patientB)))
    {| what := CallRegistryHealth; at_stage := Stage.initial;
       rejected := None |}.

(** Imagery with blank symptoms, and a classifier that fails. *)
Definition patientBlank : PatientData :=
  {| age := Js.lit "61"; gender := Js.lit "Other";
     symptoms := [32; 9; 10; 160; 8195]%N; history := [];
     images := [ {| file_name := Js.lit "ct.png" |} ] |}.

Definition blindServices : Services :=
  {| identifyAnatomyFromImage :=
       fun _ => Rejected (ErrorObj (Js.lit "classifier offline"));
     getRegistryHealth := getRegistryHealth demoServices;
     retrieveSimilarCases := retrieveSimilarCases demoServices;
     analyzePatientCase := analyzePatientCase demoServices |}.

Definition retrievalOfBlank : CallEvent :=
  nth 2 (calls (exec blindServices (withPatient patientBlank)))
    {| what := CallRegistryHealth; at_stage := Stage.initial;
       rejected := None |}.

(** A second case after a completed one: the user resets and fills the
    form again. The progress record still shows the finished run. *)
Definition afterDemoRun : AppState :=
  app (exec demoServices (withPatient patientA)).

Definition nextCase : AppState :=
  app (snd ((reset ;;
             handleInputChange FieldAge (Js.lit "55") ;;
             handleInputChange FieldSymptoms (Js.lit "irregular mole"))
              (start afterDemoRun))).

(** Scenario C: the registry probe is down. *)
Definition registryDown : Services :=
  {| identifyAnatomyFromImage := identifyAnatomyFromImage demoServices;
     getRegistryHealth :=
       fun _ => Rejected (ErrorObj (Js.lit "Registry unavailable"));
     retrieveSimilarCases := retrieveSimilarCases demoServices;
     analyzePatientCase := analyzePatientCase demoServices |}.

Definition probeOfC : CallEvent :=
  nth 0 (calls (exec registryDown (withPatient patientA)))
    {| what := CallRetrieve []; at_stage := Stage.initial;
       rejected := None |}.


(** A registry case with a three-part id. *)
Definition sampleCase : CaseStudy.t :=
  {| CaseStudy.id := Js.lit "TCIA-GBM-0042"; CaseStudy.title := [];
     CaseStudy.age := 61%Z; CaseStudy.gender := Male;
     CaseStudy.symptoms := []; CaseStudy.diagnosis := [];
     CaseStudy.outcome := []; CaseStudy.summary := [];
     CaseStudy.imageUrl := []; CaseStudy.visual_findings := [];
     CaseStudy.databaseSource := []; CaseStudy.verifiedBy := [];
     CaseStudy.relevanceScore := Some 91%Z; CaseStudy.sourceUrl := None |}.

(** Scenario B, opened on a mounted form by typing an age and choosing
    two files. *)
Definition scanOne : File := {| file_name := Js.lit "scan.png" |}.
Definition scanTwo : File := {| file_name := Js.lit "side.png" |}.

Definition formWithAge : AppState :=
  app (snd (handleInputChange FieldAge (Js.lit "40") (start initialApp))).

(** The results view of a finished demo case, as the application reaches
    it: type an age, type the symptoms, click Run. *)
Definition demoForm : AppState :=
  app (snd (handleInputChange FieldSymptoms (Js.lit "irregular mole")
              (start (app (snd (handleInputChange FieldAge (Js.lit "55")
                                  (start initialApp))))))).

Definition demoResults : AppState := app (exec demoServices demoForm).

(* ================================================================== *)
(** * Properties *)

(** ** Strings: what [trim] leaves *)

Module JsFacts.
Import Js.

Lemma trimStart_blank (s : str) :
  forallb isWhiteSpace s = true -> trimStart s = [].
Proof.
  induction s as [|c r IH]; simpl; [reflexivity|].
  intros H. apply andb_prop in H. destruct H as [Hc Hr].
  rewrite Hc. exact (IH Hr).
Qed.

Lemma trimStart_nil_blank (s : str) :
  trimStart s = [] -> forallb isWhiteSpace s = true.
Proof.
  induction s as [|c r IH]; simpl; [reflexivity|].
  destruct (isWhiteSpace c); [exact IH | discriminate].
Qed.

Lemma forallb_rev (f : N -> bool) (s : str) :
  forallb f (rev s) = forallb f s.
Proof.
  induction s as [|c r IH]; simpl; [reflexivity|].
  rewrite forallb_app, IH. simpl. rewrite andb_true_r. apply andb_comm.
Qed.

(** What [trimStart] leaves is a suffix, cut before a non-blank unit. *)
Lemma trimStart_blank_prefix (s : str) :
  forallb isWhiteSpace (trimStart s) = true -> trimStart s = [].
Proof.
  induction s as [|c r IH]; simpl; [reflexivity|].
  destruct (isWhiteSpace c) eqn:E; [exact IH|].
  simpl. rewrite E. discriminate.
Qed.

(** [s.trim()] is empty exactly when [s] holds white space only. *)
Lemma trim_nil_iff (s : str) :
  trim s = [] <-> forallb isWhiteSpace s = true.
Proof.
  unfold trim, trimEnd. split.
  - intros H.
    assert (H1 : trimStart (rev (trimStart s)) = []).
    { destruct (trimStart (rev (trimStart s))) as [|x l]; [reflexivity|].
      simpl in H. destruct (rev l); discriminate. }
    apply trimStart_nil_blank in H1. rewrite forallb_rev in H1.
    apply trimStart_nil_blank. apply trimStart_blank_prefix. exact H1.
  - intros H. rewrite (trimStart_blank s H). reflexivity.
Qed.

Lemma truthy_false_iff (s : str) : truthy s = false <-> s = [].
Proof. destruct s; simpl; split; congruence. Qed.

Lemma truthy_true_iff (s : str) : truthy s = true <-> s <> [].
Proof. destruct s; simpl; split; congruence. Qed.
End JsFacts.

(** ** The progress log: [slice(-3)] and [pushLog] *)

Lemma slice_last3_length (xs : list Js.str) :
  (List.length (Stage.slice_last3 xs) <= 3)%nat.
Proof. unfold Stage.slice_last3. rewrite length_skipn. lia. Qed.

Lemma slice_last3_short (xs : list Js.str) :
  (List.length xs <= 3)%nat -> Stage.slice_last3 xs = xs.
Proof.
  intros H. unfold Stage.slice_last3.
  replace (List.length xs - 3)%nat with 0%nat by lia. reflexivity.
Qed.

Lemma slice_last3_full (xs : list Js.str) :
  List.length xs = 4%nat -> Stage.slice_last3 xs = tl xs.
Proof.
  intros H. unfold Stage.slice_last3. rewrite H.
  destruct xs; [discriminate | reflexivity].
Qed.

Lemma pushLog_length (msg : Js.str) (prev : Stage.t) :
  (List.length (Stage.log (Stage.pushLog msg prev)) <= 4)%nat.
Proof.
  simpl. rewrite length_app. simpl.
  pose proof (slice_last3_length (Stage.log prev)). lia.
Qed.

(* ================================================================== *)
(** ** Running [runAnalysis] *)

Arguments Js.lit : simpl never.
Arguments Js.trim : simpl never.
Arguments Js.ofNat : simpl never.
Arguments Txt.logAnatomy : simpl never.
Arguments Txt.logRetrieved : simpl never.
Arguments Txt.tagOpen : simpl never.
Arguments constructQuery : simpl never.
Arguments hasSymptoms : simpl never.
Arguments hasImages : simpl never.

(** Symbolic execution of a run recorded in hypothesis [E]: unfold the
    handler, then split on each test and service answer it meets. *)
Ltac run_unfold_in E :=
  unfold runAnalysis, pipeline, visionStage, addLog,
    setStep, setError, setSystemHealth, setAnalysisResult,
    setProcessingStage, consoleError, await, sleep, modifyApp,
    getPatientData, tryCatch, bind, ret, start, bootStage in E;
  simpl in E.

Ltac run_case_in E :=
  match type of E with
  | context [match ?o with Resolved _ => _ | Rejected _ => _ end] =>
      destruct o eqn:?; simpl in E
  | context [if ?b then _ else _] => destruct b eqn:?; simpl in E
  end.

Ltac run_paths E := run_unfold_in E; repeat run_case_in E.

Lemma valid_true (pd : PatientData) :
  valid pd = true ->
  Js.truthy (age pd) = true /\
  negb (hasSymptoms pd) && negb (hasImages pd) = false.
Proof.
  unfold valid. intros H. apply andb_prop in H. destruct H as [Ha He].
  split; [exact Ha|].
  destruct (hasSymptoms pd), (hasImages pd); simpl in *; congruence.
Qed.

Lemma valid_false (pd : PatientData) :
  valid pd = false ->
  Js.truthy (age pd) = false \/
  (Js.truthy (age pd) = true /\
   negb (hasSymptoms pd) && negb (hasImages pd) = true).
Proof.
  unfold valid.
  destruct (Js.truthy (age pd)), (hasSymptoms pd), (hasImages pd);
    simpl; intros H; try discriminate; auto.
Qed.

(** The handler past validation: the four setters, then the guarded
    pipeline. *)
Lemma runAnalysis_valid (svc : Services) (a : AppState) :
  valid (patientData a) = true ->
  runAnalysis svc (start a) =
  (setStep Analyzing ;;
   setError None ;;
   setSystemHealth [] ;;
   setProcessingStage (fun _ => bootStage) ;;
   tryCatch (pipeline svc (patientData a))
     (fun err => setError (Some (errorMessage err)) ;; setStep Input))
    (start a).
Proof.
  intros H. destruct (valid_true _ H) as [Ha He].
  unfold runAnalysis at 1, bind at 1, getPatientData. simpl.
  rewrite Ha, He. reflexivity.
Qed.

(** The vision stage never completes abruptly, and yields [visionLabel]. *)
Lemma visionStage_normal (svc : Services) (pd : PatientData) (w : World) :
  fst (visionStage svc pd w) = Normal (visionLabel svc pd).
Proof.
  unfold visionLabel.
  unfold visionStage, addLog, setProcessingStage, consoleError, await,
    sleep, tryCatch, bind, ret.
  destruct (hasImages pd); simpl; [|reflexivity].
  destruct (identifyAnatomyFromImage svc (hd_error (images pd)));
    reflexivity.
Qed.

(* ================================================================== *)
(** ** Validation *)

Lemma runAnalysis_no_age (svc : Services) (a : AppState) :
  Js.truthy (age (patientData a)) = false ->
  runAnalysis svc (start a) = (Normal tt, start (rejectedWith a Txt.noAge)).
Proof.
  intros H. unfold runAnalysis, bind, getPatientData. simpl.
  rewrite H. reflexivity.
Qed.

Lemma runAnalysis_no_evidence (svc : Services) (a : AppState) :
  Js.truthy (age (patientData a)) = true ->
  hasSymptoms (patientData a) = false ->
  hasImages (patientData a) = false ->
  runAnalysis svc (start a) =
  (Normal tt, start (rejectedWith a Txt.noEvidence)).
Proof.
  intros Ha Hs Hi. unfold runAnalysis, bind, getPatientData. simpl.
  rewrite Ha, Hs, Hi. reflexivity.
Qed.

(** Past validation the first thing written is the boot record. *)
Lemma runAnalysis_boots (svc : Services) (a : AppState) :
  valid (patientData a) = true ->
  hd_error (writes (exec svc a)) = Some bootStage.
Proof.
  intros Hv. destruct (valid_true _ Hv) as [Ha He]. unfold exec.
  destruct (runAnalysis svc (start a)) as [c w] eqn:E.
  run_unfold_in E. rewrite Ha, He in E. simpl in E.
  repeat run_case_in E; injection E as <- <-; reflexivity.
Qed.

Lemma hasImages_false_iff (pd : PatientData) :
  hasImages pd = false <-> images pd = [].
Proof.
  unfold hasImages. destruct (images pd); cbn; split; congruence.
Qed.

Lemma hasSymptoms_false_iff (pd : PatientData) :
  hasSymptoms pd = false <-> forallb Js.isWhiteSpace (symptoms pd) = true.
Proof.
  unfold hasSymptoms. rewrite <- JsFacts.trim_nil_iff.
  destruct (symptoms pd) as [|c r] eqn:Es; simpl.
  - split; reflexivity.
  - destruct (Js.trim (c :: r)); cbn; split; congruence.
Qed.

(** C2: a query without an age, or with empty symptoms and no imagery, is
    rejected at once: the handler returns after setting a validation
    message; no service is called, nothing is written to the progress
    record, which keeps the value it had, and nothing else changes. *)
Theorem invalid_query_rejected_before_pipeline
    (svc : Services) (a : AppState) :
  age (patientData a) = [] \/
  (symptoms (patientData a) = [] /\ images (patientData a) = []) ->
  let w := exec svc a in
  completion svc a = Normal tt /\
  (error (app w) = Some Txt.noAge \/ error (app w) = Some Txt.noEvidence) /\
  calls w = [] /\ writes w = [] /\ console w = [] /\
  processingStage (app w) = processingStage a /\
  step (app w) = step a /\
  patientData (app w) = patientData a /\
  analysisResult (app w) = analysisResult a.
Proof.
  intros H. unfold exec, completion.
  destruct (Js.truthy (age (patientData a))) eqn:Ha.
  - destruct H as [H | [Hs Hi]].
    + rewrite H in Ha. discriminate.
    + rewrite (runAnalysis_no_evidence svc a Ha).
      * simpl. repeat split; auto.
      * unfold hasSymptoms. rewrite Hs. reflexivity.
      * apply hasImages_false_iff. exact Hi.
  - rewrite (runAnalysis_no_age svc a Ha). simpl. repeat split; auto.
Qed.

Lemma invalid_query_rejected_before_pipeline_witness :
  let w := exec demoServices initialApp in
  completion demoServices initialApp = Normal tt /\
  (error (app w) = Some Txt.noAge \/ error (app w) = Some Txt.noEvidence) /\
  calls w = [] /\ writes w = [] /\ console w = [] /\
  processingStage (app w) = processingStage initialApp /\
  step (app w) = step initialApp /\
  patientData (app w) = patientData initialApp /\
  analysisResult (app w) = analysisResult initialApp.
Proof.
  apply (invalid_query_rejected_before_pipeline demoServices initialApp).
  left. reflexivity.
Defined.

(** C9: the age check is a presence check. Whatever non-empty string the
    age field holds, the run is never rejected for its age: with symptoms
    or imagery the pipeline starts (the boot record is written), and
    without them the rejection is the one about missing evidence. *)
Theorem age_check_is_presence_only (svc : Services) (a : AppState) :
  age (patientData a) <> [] ->
  let pd := patientData a in
  let w := exec svc a in
  Js.truthy (age pd) = true /\
  valid pd = hasSymptoms pd || hasImages pd /\
  (hasSymptoms pd || hasImages pd = true ->
   hd_error (writes w) = Some bootStage) /\
  (hasSymptoms pd || hasImages pd = false ->
   error (app w) = Some Txt.noEvidence /\ writes w = []).
Proof.
  intros Hage. simpl.
  assert (Ha : Js.truthy (age (patientData a)) = true)
    by (apply JsFacts.truthy_true_iff; exact Hage).
  assert (Hv : valid (patientData a) =
               hasSymptoms (patientData a) || hasImages (patientData a))
    by (unfold valid; rewrite Ha; reflexivity).
  repeat split; auto.
  - intros He. apply runAnalysis_boots. rewrite Hv. exact He.
  - apply orb_false_elim in H. destruct H as [Hs Hi]. unfold exec.
    rewrite (runAnalysis_no_evidence svc a Ha Hs Hi). reflexivity.
  - apply orb_false_elim in H. destruct H as [Hs Hi]. unfold exec.
    rewrite (runAnalysis_no_evidence svc a Ha Hs Hi). reflexivity.
Qed.

Lemma age_check_is_presence_only_witness :
  hd_error (writes (exec demoServices (withPatient (withAge (Js.lit "0")))))
    = Some bootStage /\
  hd_error (writes (exec demoServices (withPatient (withAge (Js.lit "-5")))))
    = Some bootStage /\
  hd_error (writes (exec demoServices (withPatient (withAge (Js.lit "abc")))))
    = Some bootStage.
Proof.
  split; [|split].
  - destruct (age_check_is_presence_only demoServices
                (withPatient (withAge (Js.lit "0"))))
      as (_ & _ & Hstart & _); [discriminate|].
    apply Hstart. reflexivity.
  - destruct (age_check_is_presence_only demoServices
                (withPatient (withAge (Js.lit "-5"))))
      as (_ & _ & Hstart & _); [discriminate|].
    apply Hstart. reflexivity.
  - destruct (age_check_is_presence_only demoServices
                (withPatient (withAge (Js.lit "abc"))))
      as (_ & _ & Hstart & _); [discriminate|].
    apply Hstart. reflexivity.
Defined.

(* ================================================================== *)
(** ** The retrieval query *)

(** [patientData.symptoms || ""] is the symptoms string. *)
Lemma symptoms_or_empty (s : Js.str) :
  (if Js.truthy s then s else []) = s.
Proof. destruct s; reflexivity. Qed.

Lemma constructQuery_tagged (pd : PatientData) (l : Js.str) :
  l <> [] -> constructQuery pd l = anatomyTag l ++ symptoms pd.
Proof.
  intros H. unfold constructQuery. rewrite symptoms_or_empty.
  apply JsFacts.truthy_true_iff in H. rewrite H. reflexivity.
Qed.

Lemma constructQuery_default (pd : PatientData) :
  Js.trim (symptoms pd) = [] -> constructQuery pd [] = Txt.defaultQuery.
Proof.
  intros H. unfold constructQuery. rewrite symptoms_or_empty, H.
  reflexivity.
Qed.

Lemma constructQuery_plain (pd : PatientData) :
  Js.trim (symptoms pd) <> [] -> constructQuery pd [] = symptoms pd.
Proof.
  intros H. unfold constructQuery. rewrite symptoms_or_empty.
  apply JsFacts.truthy_true_iff in H. rewrite H. reflexivity.
Qed.

Ltac know_vision :=
  unfold visionLabel;
  repeat match goal with
         | H : hasImages _ = _ |- _ => rewrite H
         | H : identifyAnatomyFromImage _ _ = _ |- _ => rewrite H
         end.

(** Whenever a run calls [retrieveSimilarCases], its argument is the
    query built from the patient data and the vision label. *)
Lemma retrieval_query (svc : Services) (a : AppState)
    (ev : CallEvent) (q : Js.str) :
  In ev (calls (exec svc a)) ->
  what ev = CallRetrieve q ->
  q = constructQuery (patientData a) (visionLabel svc (patientData a)).
Proof.
  unfold exec. destruct (runAnalysis svc (start a)) as [c w] eqn:E.
  run_paths E; injection E as <- <-; simpl; intros Hin Hq;
    repeat (destruct Hin as [<- | Hin]; simpl in Hq;
            [try discriminate|]);
    try contradiction;
    injection Hq as <-; know_vision; reflexivity.
Qed.

(** C5, as stated, fails on Scenario B: with empty symptoms and the label
    "Lung" the query handed to retrieval is the bare tag; the default
    phrase is substituted neither behind the tag nor in place of it. *)
Lemma default_phrase_not_substituted_behind_tag :
  symptoms patientB = [] /\
  visionLabel demoServices patientB = Js.lit "Lung" /\
  exists ev q,
    In ev (calls (exec demoServices (withPatient patientB))) /\
    what ev = CallRetrieve q /\
    q = Js.lit "[PATIENT IMAGING ANATOMY: Lung] " /\
    q <> specQuery patientB (Js.lit "Lung") /\
    q <> Txt.defaultQuery.
Proof.
  split; [reflexivity|]. split; [reflexivity|].
  eexists. eexists. split.
  - vm_compute. right. right. left. reflexivity.
  - vm_compute. repeat split; discriminate.
Qed.

(** C5 (amended): the query handed to retrieval is built from the vision
    label [l] and the symptoms: with a non-empty label it is the tag
    "[PATIENT IMAGING ANATOMY: l] " followed by the symptoms as entered,
    empty or not; without a label it is the default phrase when the
    symptoms are empty or blank, and the symptoms otherwise. *)
Theorem retrieval_query_construction (svc : Services) (a : AppState)
    (ev : CallEvent) (q : Js.str) :
  In ev (calls (exec svc a)) ->
  what ev = CallRetrieve q ->
  let pd := patientData a in
  let l := visionLabel svc pd in
  (l <> [] ->
   q = Txt.tagOpen ++ l ++ Txt.tagClose ++ symptoms pd) /\
  (l = [] -> Js.trim (symptoms pd) = [] -> q = Txt.defaultQuery) /\
  (l = [] -> Js.trim (symptoms pd) <> [] -> q = symptoms pd).
Proof.
  intros Hin Hq. simpl.
  rewrite (retrieval_query svc a ev Hin Hq).
  repeat split.
  - intros Hl. rewrite (constructQuery_tagged _ Hl). unfold anatomyTag.
    rewrite <- !app_assoc. reflexivity.
  - intros Hl Ht. rewrite Hl. apply constructQuery_default. exact Ht.
  - intros Hl Ht. rewrite Hl. apply constructQuery_plain. exact Ht.
Qed.

Lemma retrieval_query_construction_witness :
  In retrievalOfB (calls (exec demoServices (withPatient patientB))) /\
  what retrievalOfB = CallRetrieve (Js.lit "[PATIENT IMAGING ANATOMY: Lung] ") /\
  Js.lit "[PATIENT IMAGING ANATOMY: Lung] " =
    Txt.tagOpen ++ Js.lit "Lung" ++ Txt.tagClose ++ symptoms patientB.
Proof.
  assert (Hin : In retrievalOfB
                  (calls (exec demoServices (withPatient patientB))))
    by (vm_compute; right; right; left; reflexivity).
  assert (Hq : what retrievalOfB =
               CallRetrieve (Js.lit "[PATIENT IMAGING ANATOMY: Lung] "))
    by reflexivity.
  split; [exact Hin|]. split; [exact Hq|].
  destruct (retrieval_query_construction demoServices
              (withPatient patientB) retrievalOfB Hin Hq) as (Htag & _ & _).
  apply Htag. discriminate.
Defined.

(* ================================================================== *)
(** ** Blank symptoms *)

(** C10: symptoms made of white space only count as no symptoms at both
    places that trim them. At validation [hasSymptoms] is false, so
    without imagery the query is rejected and with imagery (and an age)
    the pipeline starts; at query construction, when there is no anatomy
    label, the blank symptoms give way to the default phrase, which is
    what any retrieval call of the run receives. *)
Theorem blank_symptoms_count_as_empty (svc : Services) (a : AppState) :
  forallb Js.isWhiteSpace (symptoms (patientData a)) = true ->
  let pd := patientData a in
  let w := exec svc a in
  hasSymptoms pd = false /\
  (images pd = [] ->
   (error (app w) = Some Txt.noAge \/ error (app w) = Some Txt.noEvidence)
   /\ writes w = [] /\ calls w = []) /\
  (images pd <> [] -> age pd <> [] ->
   hd_error (writes w) = Some bootStage) /\
  constructQuery pd [] = Txt.defaultQuery /\
  (forall ev q,
     In ev (calls w) -> what ev = CallRetrieve q ->
     visionLabel svc pd = [] -> q = Txt.defaultQuery).
Proof.
  intros Hblank. simpl.
  assert (Hs : hasSymptoms (patientData a) = false)
    by (apply hasSymptoms_false_iff; exact Hblank).
  assert (Ht : Js.trim (symptoms (patientData a)) = [])
    by (apply JsFacts.trim_nil_iff; exact Hblank).
  split; [exact Hs|]. split; [|split; [|split]].
  - intros Hi. apply hasImages_false_iff in Hi. unfold exec.
    destruct (Js.truthy (age (patientData a))) eqn:Ha.
    + rewrite (runAnalysis_no_evidence svc a Ha Hs Hi). simpl. auto.
    + rewrite (runAnalysis_no_age svc a Ha). simpl. auto.
  - intros Hi Ha. apply runAnalysis_boots. unfold valid.
    apply JsFacts.truthy_true_iff in Ha. rewrite Ha, Hs. simpl.
    destruct (hasImages (patientData a)) eqn:E; [reflexivity|].
    apply hasImages_false_iff in E. contradiction.
  - apply constructQuery_default. exact Ht.
  - intros ev q Hin Hq Hl.
    rewrite (retrieval_query svc a ev Hin Hq), Hl.
    apply constructQuery_default. exact Ht.
Qed.

Lemma blank_symptoms_count_as_empty_witness :
  hasSymptoms patientBlank = false /\
  In retrievalOfBlank (calls (exec blindServices (withPatient patientBlank)))
  /\
  what retrievalOfBlank =
    CallRetrieve (Js.lit "visual anomaly suspected malignancy") /\
  Js.lit "visual anomaly suspected malignancy" = Txt.defaultQuery.
Proof.
  assert (Hblank : forallb Js.isWhiteSpace
                     (symptoms (patientData (withPatient patientBlank)))
                   = true) by reflexivity.
  assert (Hin : In retrievalOfBlank
                  (calls (exec blindServices (withPatient patientBlank))))
    by (vm_compute; right; right; left; reflexivity).
  assert (Hw : what retrievalOfBlank =
               CallRetrieve (Js.lit "visual anomaly suspected malignancy"))
    by (vm_compute; reflexivity).
  pose proof (blank_symptoms_count_as_empty blindServices
                (withPatient patientBlank) Hblank) as H.
  destruct H as (Hs & _ & _ & _ & Hq).
  split; [exact Hs|]. split; [exact Hin|]. split; [exact Hw|].
  apply (Hq retrievalOfBlank _ Hin Hw). reflexivity.
Defined.

(* ================================================================== *)
(** ** Invariants of the world, program by program *)

Section Keeps.
Variable I : World -> Prop.

Lemma keeps_ret {A} (x : A) : keeps I (ret x).
Proof. intros w H. exact H. Qed.

Lemma keeps_bind {A B} (m : M A) (k : A -> M B) :
  keeps I m -> (forall x, keeps I (k x)) -> keeps I (bind m k).
Proof.
  intros Hm Hk w Hw. unfold bind. specialize (Hm w Hw).
  destruct (m w) as [[x|e] w']; simpl in *.
  - apply Hk. exact Hm.
  - exact Hm.
Qed.

Lemma keeps_tryCatch {A} (body : M A) (handler : Thrown -> M A) :
  keeps I body -> (forall e, keeps I (handler e)) ->
  keeps I (tryCatch body handler).
Proof.
  intros Hb Hh w Hw. unfold tryCatch. specialize (Hb w Hw).
  destruct (body w) as [[x|e] w']; simpl in *.
  - exact Hb.
  - apply Hh. exact Hb.
Qed.

Lemma keeps_if {A} (b : bool) (m1 m2 : M A) :
  keeps I m1 -> keeps I m2 -> keeps I (if b then m1 else m2).
Proof. destruct b; auto. Qed.
End Keeps.

Lemma keeps_logs_modifyApp (f : AppState -> AppState) :
  (forall a, processingStage (f a) = processingStage a) ->
  keeps LogsBounded (modifyApp f).
Proof.
  intros Hf w [Hw Hc]. split; simpl; [exact Hw|]. rewrite Hf. exact Hc.
Qed.

Lemma keeps_logs_setProcessingStage (f : Stage.t -> Stage.t) :
  (forall s, bounded s -> bounded (f s)) ->
  keeps LogsBounded (setProcessingStage f).
Proof.
  intros Hf w [Hw Hc]. split; simpl.
  - apply Forall_app. split; [exact Hw|]. constructor; [|constructor].
    apply Hf. exact Hc.
  - apply Hf. exact Hc.
Qed.

Lemma keeps_logs_addLog (msg : Js.str) : keeps LogsBounded (addLog msg).
Proof.
  apply keeps_logs_setProcessingStage. intros s _. apply pushLog_length.
Qed.

Lemma keeps_logs_await {A} (c : Call) (o : Outcome A) :
  keeps LogsBounded (await c o).
Proof. intros w H. unfold await. destruct o; exact H. Qed.

Lemma keeps_logs_consoleError (msg : Js.str) (e : Thrown) :
  keeps LogsBounded (consoleError msg e).
Proof. intros w H. exact H. Qed.

Create HintDb keeps.

#[local] Hint Resolve keeps_ret keeps_logs_addLog keeps_logs_await
  keeps_logs_consoleError : keeps.

Ltac keeps_logs :=
  repeat first
    [ apply keeps_bind; [|intros ?]
    | apply keeps_tryCatch; [|intros ?]
    | apply keeps_if
    | apply keeps_logs_setProcessingStage; intros ? ?; assumption
    | apply keeps_logs_modifyApp; intros ?; reflexivity
    | solve [auto with keeps] ].

Lemma visionStage_keeps_logs (svc : Services) (pd : PatientData) :
  keeps LogsBounded (visionStage svc pd).
Proof. unfold visionStage, sleep. keeps_logs. Qed.

Lemma pipeline_keeps_logs (svc : Services) (pd : PatientData) :
  keeps LogsBounded (pipeline svc pd).
Proof.
  unfold pipeline, sleep, setSystemHealth, setAnalysisResult, setStep.
  apply keeps_bind; [apply visionStage_keeps_logs | intros ?].
  keeps_logs.
Qed.

Lemma runAnalysis_logs_bounded (svc : Services) (a : AppState) :
  Forall bounded (writes (exec svc a)).
Proof.
  unfold exec. destruct (valid (patientData a)) eqn:Hv.
  - rewrite (runAnalysis_valid svc a Hv).
    unfold bind at 1 2 3 4. simpl.
    match goal with
    | |- Forall _ (writes (snd (tryCatch ?b ?h ?w))) =>
        enough (H : LogsBounded (snd (tryCatch b h w))) by apply H;
        apply (keeps_tryCatch (I := LogsBounded))
    end.
    + apply pipeline_keeps_logs.
    + intros e. unfold setError, setStep. keeps_logs.
    + split; simpl; [repeat constructor|]; unfold bounded; simpl; lia.
  - destruct (valid_false _ Hv) as [Ha | [Ha He]].
    + rewrite (runAnalysis_no_age svc a Ha). constructor.
    + apply andb_prop in He. destruct He as [Hs Hi].
      apply negb_true_iff in Hs, Hi.
      rewrite (runAnalysis_no_evidence svc a Ha Hs Hi). constructor.
Qed.

(* ================================================================== *)
(** ** The stage and percent written, run by run *)

(** Every run past validation writes one of the twelve traces, and ends
    as the trace says. *)
Lemma run_trace (svc : Services) (a : AppState) :
  valid (patientData a) = true ->
  exists t e,
    map stamp (writes (exec svc a)) = t /\
    ended a (app (exec svc a)) e /\
    In (t, e) runTraces.
Proof.
  intros Hv. destruct (valid_true _ Hv) as [Ha He]. unfold exec.
  destruct (runAnalysis svc (start a)) as [c w] eqn:E.
  run_unfold_in E. rewrite Ha, He in E. simpl in E.
  repeat run_case_in E; injection E as <- <-; simpl; eexists;
    first
      [ solve [ exists EndDone; split; [reflexivity|]; split;
                [ simpl; repeat split; eexists; reflexivity
                | vm_compute; repeat first [left; reflexivity | right] ] ]
      | solve [ exists EndFailed; split; [reflexivity|]; split;
                [ simpl; repeat split; eexists; reflexivity
                | vm_compute; repeat first [left; reflexivity | right] ] ] ].
Qed.

Lemma run_trace_invalid (svc : Services) (a : AppState) :
  valid (patientData a) = false -> writes (exec svc a) = [].
Proof.
  intros Hv. unfold exec. destruct (valid_false _ Hv) as [Ha | [Ha He]].
  - rewrite (runAnalysis_no_age svc a Ha). reflexivity.
  - apply andb_prop in He. destruct He as [Hs Hi].
    apply negb_true_iff in Hs, Hi.
    rewrite (runAnalysis_no_evidence svc a Ha Hs Hi). reflexivity.
Qed.

(** *** Checks on a trace, decided by computation *)

Lemma nondecreasing_Sorted (l : list Z) :
  nondecreasing l = true -> Sorted Z.le l.
Proof.
  induction l as [|x r IH]; intros H; [constructor|].
  destruct r as [|y r'].
  - repeat constructor.
  - simpl in H. apply andb_prop in H. destruct H as [Hxy Hr].
    constructor; [exact (IH Hr)|]. constructor. lia.
Qed.

(** In a non-decreasing sequence preceded by an earlier value, only the
    first element can lie below its predecessor. *)
Lemma lowering_only_at_head (ps : list Z) :
  Sorted Z.le ps ->
  forall (p0 : Z) (i : nat) (x y : Z),
    nth_error (p0 :: ps) i = Some x ->
    nth_error ps i = Some y ->
    (y < x)%Z -> i = 0%nat.
Proof.
  induction 1 as [|h tl Hs IH Hhd]; intros p0 i x y Hx Hy Hlt.
  - destruct i; discriminate.
  - destruct i as [|j]; [reflexivity|]. simpl in Hx, Hy. exfalso.
    pose proof (IH h j x y Hx Hy Hlt) as ->. simpl in Hx.
    destruct tl as [|z tl']; [discriminate|]. simpl in Hy.
    inversion Hhd; subst. injection Hx as <-. injection Hy as <-. lia.
Qed.

Lemma runTraces_checked : forallb traceChecks runTraces = true.
Proof. vm_compute. reflexivity. Qed.

Lemma progress_of_stamps (ws : list Stage.t) :
  map Stage.progress ws = map snd (map stamp ws).
Proof. rewrite map_map. reflexivity. Qed.

(** The checks, for the trace of any run past validation. *)
Lemma run_trace_checked (svc : Services) (a : AppState) :
  valid (patientData a) = true ->
  exists e,
    ended a (app (exec svc a)) e /\
    traceChecks (map stamp (writes (exec svc a)), e) = true.
Proof.
  intros Hv. destruct (run_trace svc a Hv) as (t & e & Ht & He & Hin).
  exists e. split; [exact He|]. rewrite Ht.
  pose proof runTraces_checked as H. rewrite forallb_forall in H.
  exact (H _ Hin).
Qed.

(* ================================================================== *)
(** ** Percent *)

(** The handler itself never throws: its promise resolves. *)
Lemma runAnalysis_returns (svc : Services) (a : AppState) :
  completion svc a = Normal tt.
Proof.
  unfold completion.
  destruct (runAnalysis svc (start a)) as [c w] eqn:E.
  run_paths E; injection E as <- <-; reflexivity.
Qed.

(** C1: for every query that passes validation, one click on Run returns
    and leaves exactly one of two outcomes: the results view holding the
    synthesizer's report and no error ([Done]), or the input view holding
    an error message, the run having written no report ([Failed]). On a
    case that starts without a report, as every case does, the final
    state thus holds a report or an error, never both and never
    neither. *)
Theorem run_ends_done_or_failed (svc : Services) (a : AppState) :
  valid (patientData a) = true ->
  let f := app (exec svc a) in
  completion svc a = Normal tt /\
  ((exists r, Done f r) \/
   (exists e, Failed f e /\ analysisResult f = analysisResult a)) /\
  (analysisResult a = None ->
   (analysisResult f <> None /\ error f = None) \/
   (analysisResult f = None /\ error f <> None)).
Proof.
  intros Hv. cbv zeta. split; [apply runAnalysis_returns|].
  destruct (run_trace svc a Hv) as (t & e & _ & Hend & _).
  unfold Done, Failed. destruct e; simpl in Hend.
  - destruct Hend as (Hs & He & r & Hr). split.
    + left. exists r. auto.
    + intros _. left. rewrite Hr. split; [discriminate | exact He].
  - destruct Hend as (Hs & [m Hm] & Hr). split.
    + right. exists m. auto.
    + intros Hfresh. right. rewrite Hr, Hm. split; [exact Hfresh|discriminate].
Qed.

Lemma run_ends_done_or_failed_witness :
  (exists r, Done (app (exec demoServices (withPatient patientA))) r) \/
  (exists e, Failed (app (exec demoServices (withPatient patientA))) e /\
             analysisResult (app (exec demoServices (withPatient patientA)))
             = analysisResult (withPatient patientA)).
Proof.
  destruct (run_ends_done_or_failed demoServices (withPatient patientA))
    as (_ & H & _); [reflexivity | exact H].
Defined.

(** C6, as stated, fails where it speaks of a reset to 0: a run that
    starts with the record of a finished run (percent 100) resets percent
    to 5, and 0 is not written at any point of the run. *)
Lemma new_run_resets_percent_to_five :
  step nextCase = Input /\
  valid (patientData nextCase) = true /\
  Stage.progress (processingStage nextCase) = 100%Z /\
  map Stage.progress (writes (exec demoServices nextCase)) =
    [5; 30; 30; 45; 45; 45; 60; 60; 75; 75; 85; 85; 100; 100]%Z /\
  hd_error (map Stage.progress (writes (exec demoServices nextCase)))
    <> Some 0%Z /\
  ~ In 0%Z (map Stage.progress (writes (exec demoServices nextCase))).
Proof.
  vm_compute. repeat split; try discriminate.
  intros H. repeat (destruct H as [H | H]; [discriminate|]). exact H.
Qed.

(** C6 (amended): in every run the percents written never decrease and
    lie between 5 and 100; a run past validation first writes 5; 100 is
    the last value written exactly when the run ends in the results view
    with a report and no error; and the only write that can lower percent
    is the first one of a run, which sets it to 5. *)
Theorem percent_rises_from_five (svc : Services) (a : AppState) :
  let w := exec svc a in
  let ps := map Stage.progress (writes w) in
  Sorted Z.le ps /\
  (forall p, In p ps -> (5 <= p <= 100)%Z) /\
  (valid (patientData a) = true -> hd_error ps = Some 5%Z) /\
  ((exists pre, ps = pre ++ [100%Z]) <-> (exists r, Done (app w) r)) /\
  (forall i x y,
     nth_error (Stage.progress (processingStage a) :: ps) i = Some x ->
     nth_error ps i = Some y ->
     (y < x)%Z -> i = 0%nat /\ y = 5%Z).
Proof.
  cbv zeta. destruct (valid (patientData a)) eqn:Hv.
  - destruct (run_trace_checked svc a Hv) as (e & He & Hc).
    rewrite progress_of_stamps.
    unfold traceChecks in Hc. simpl fst in Hc. simpl snd in Hc.
    set (ps := map snd (map stamp (writes (exec svc a)))) in *.
    clearbody ps.
    repeat (apply andb_prop in Hc; destruct Hc as [Hc ?]).
    assert (Hsorted : Sorted Z.le ps) by (apply nondecreasing_Sorted; exact Hc).
    assert (Hhd : hd_error ps = Some 5%Z).
    { destruct ps as [|p r]; [discriminate|]. simpl. f_equal. lia. }
    split; [exact Hsorted|]. split; [|split; [|split]].
    + intros p Hp. rewrite forallb_forall in H2. specialize (H2 p Hp). lia.
    + intros _. exact Hhd.
    + unfold Done. split.
      * intros [pre Hpre]. rewrite Hpre, last_last, Z.eqb_refl in H.
        destruct e; [|discriminate]. destruct He as (Hs & Herr & r & Hr).
        exists r. auto.
      * intros [r (Hs & _ & _)]. destruct e.
        -- simpl in H. apply eqb_prop in H. apply Z.eqb_eq in H.
           destruct ps as [|p l] using rev_ind; [discriminate|].
           rewrite last_last in H. subst p. exists l. reflexivity.
        -- destruct He as [Hstep _]. congruence.
    + intros i x y Hx Hy Hlt.
      pose proof (lowering_only_at_head Hsorted _ _ Hx Hy Hlt) as ->.
      split; [reflexivity|].
      destruct ps as [|p r]; [discriminate|]. simpl in Hy, Hhd. congruence.
  - rewrite (run_trace_invalid svc a Hv). simpl.
    split; [constructor|]. split; [intros p []|].
    split; [discriminate|]. split.
    + split.
      * intros [pre Hpre]. destruct pre; discriminate.
      * intros [r (_ & _ & Herr)]. exfalso. unfold exec in Herr.
        destruct (valid_false _ Hv) as [Ha | [Ha He]].
        -- rewrite (runAnalysis_no_age svc a Ha) in Herr. discriminate.
        -- apply andb_prop in He. destruct He as [Hs Hi].
           apply negb_true_iff in Hs, Hi.
           rewrite (runAnalysis_no_evidence svc a Ha Hs Hi) in Herr.
           discriminate.
    + intros i x y _ Hy. destruct i; discriminate.
Qed.

Lemma percent_rises_from_five_witness :
  hd_error (map Stage.progress (writes (exec demoServices nextCase)))
    = Some 5%Z /\
  exists r, Done (app (exec demoServices nextCase)) r.
Proof.
  destruct (percent_rises_from_five demoServices nextCase)
    as (_ & _ & Hhd & Hend & _).
  split.
  - apply Hhd. reflexivity.
  - apply Hend.
    exists [5; 30; 30; 45; 45; 45; 60; 60; 75; 75; 85; 85; 100]%Z.
    reflexivity.
Defined.

(** C7, as stated, fails where it speaks of enforcement: the controller's
    updates store the percent they are given without looking at the
    current one, so a lower value, written over 45, is stored as it is. *)
Lemma lower_percent_is_stored_unchecked :
  let prev := Stage.enter registry Txt.connecting 45 bootStage in
  let w := start (withPatient patientA) in
  Stage.progress prev = 45%Z /\
  Stage.progress (Stage.withProgress 10 prev) = 10%Z /\
  Stage.progress (Stage.enter retrieval Txt.traversing 10 prev) = 10%Z /\
  (Stage.progress (Stage.withProgress 10 prev) < Stage.progress prev)%Z /\
  Stage.progress
    (processingStage
       (app (snd ((setProcessingStage (fun _ => prev) ;;
                   setProcessingStage (Stage.withProgress 10)) w)))) = 10%Z.
Proof. vm_compute. repeat split; reflexivity. Qed.

(** C7 (amended): every record a run writes keeps percent within the
    band of its stage: vision 5 to 30, registry 45, retrieval 60 to 75,
    synthesis 85 to 100; so each stage ends at or below 30, 45, 75 and
    100. Within a run percent never decreases, because the values written
    are these constants in program order: an update stores the value it
    is given, whatever the current percent. *)
Theorem stage_percent_bands (svc : Services) (a : AppState) :
  let w := exec svc a in
  (forall s, In s (writes w) ->
     match Stage.step s with
     | vision => 5 <= Stage.progress s <= 30
     | registry => Stage.progress s = 45
     | retrieval => 60 <= Stage.progress s <= 75
     | synthesis => 85 <= Stage.progress s <= 100
     end%Z) /\
  Sorted Z.le (map Stage.progress (writes w)) /\
  (forall (p : Z) (l : Js.str) (st : StageId) (prev : Stage.t),
     Stage.progress (Stage.withProgress p prev) = p /\
     Stage.progress (Stage.enter st l p prev) = p /\
     Stage.progress (Stage.withLabel l p prev) = p).
Proof.
  simpl. split; [|split].
  - intros s Hs. destruct (valid (patientData a)) eqn:Hv.
    + destruct (run_trace_checked svc a Hv) as (e & _ & Hc).
      unfold traceChecks in Hc. simpl fst in Hc.
      repeat (apply andb_prop in Hc; destruct Hc as [Hc ?]).
      rewrite forallb_forall in H1.
      specialize (H1 (stamp s) (in_map stamp _ _ Hs)).
      unfold stageBounds, stamp in H1. simpl in H1.
      destruct (Stage.step s); lia.
    + rewrite (run_trace_invalid svc a Hv) in Hs. destruct Hs.
  - destruct (valid (patientData a)) eqn:Hv.
    + destruct (run_trace_checked svc a Hv) as (e & _ & Hc).
      unfold traceChecks in Hc. simpl fst in Hc.
      repeat (apply andb_prop in Hc; destruct Hc as [Hc ?]).
      rewrite progress_of_stamps. apply nondecreasing_Sorted. exact Hc.
    + rewrite (run_trace_invalid svc a Hv). constructor.
  - intros p l st prev. repeat split.
Qed.

Lemma stage_percent_bands_witness :
  (85 <= Stage.progress
           (last (writes (exec demoServices (withPatient patientB)))
                 Stage.initial) <= 100)%Z.
Proof.
  destruct (stage_percent_bands demoServices (withPatient patientB))
    as (Hband & _ & _).
  apply (Hband (last (writes (exec demoServices (withPatient patientB)))
                     Stage.initial)).
  vm_compute. do 15 right. left. reflexivity.
Defined.

(* ================================================================== *)
(** ** Failure policy *)

Lemma keeps_form_modifyApp (pd : PatientData) (f : AppState -> AppState) :
  (forall a, patientData (f a) = patientData a) ->
  keeps (formIs pd) (modifyApp f).
Proof. intros Hf w H. unfold formIs in *. simpl. rewrite Hf. exact H. Qed.

Lemma keeps_form_setProcessingStage (pd : PatientData)
    (f : Stage.t -> Stage.t) :
  keeps (formIs pd) (setProcessingStage f).
Proof. intros w H. exact H. Qed.

Lemma keeps_form_await {A} (pd : PatientData) (c : Call) (o : Outcome A) :
  keeps (formIs pd) (await c o).
Proof. intros w H. unfold await. destruct o; exact H. Qed.

Lemma keeps_form_consoleError (pd : PatientData) (m : Js.str) (e : Thrown) :
  keeps (formIs pd) (consoleError m e).
Proof. intros w H. exact H. Qed.

Lemma keeps_form_getPatientData (pd : PatientData) :
  keeps (formIs pd) getPatientData.
Proof. intros w H. exact H. Qed.

Ltac keeps_form :=
  repeat first
    [ apply keeps_bind; [|intros ?]
    | apply keeps_tryCatch; [|intros ?]
    | apply keeps_if
    | apply keeps_ret
    | apply keeps_form_setProcessingStage
    | apply keeps_form_await
    | apply keeps_form_consoleError
    | apply keeps_form_getPatientData
    | apply keeps_form_modifyApp; intros ?; reflexivity ].

Lemma runAnalysis_keeps_form (svc : Services) (a : AppState) :
  patientData (app (exec svc a)) = patientData a.
Proof.
  assert (H : keeps (formIs (patientData a)) (runAnalysis svc)).
  { unfold runAnalysis, pipeline, visionStage, addLog, sleep, setStep,
      setError, setSystemHealth, setAnalysisResult.
    keeps_form. }
  apply (H (start a)). reflexivity.
Qed.

(** A rejected call other than the classifier's ends the run on the
    spot. *)
Lemma fatal_rejection (svc : Services) (a : AppState)
    (ev : CallEvent) (e : Thrown) :
  valid (patientData a) = true ->
  In ev (calls (exec svc a)) ->
  fatalCall (what ev) = true ->
  rejected ev = Some e ->
  let w := exec svc a in
  completion svc a = Normal tt /\
  step (app w) = Input /\
  error (app w) = Some (errorMessage e) /\
  analysisResult (app w) = analysisResult a /\
  calls w = removelast (calls w) ++ [ev] /\
  processingStage (app w) = at_stage ev /\
  last (writes w) Stage.initial = at_stage ev /\
  match what ev with
  | CallIdentifyAnatomy _ => False
  | CallRegistryHealth => stamp (at_stage ev) = (registry, 45%Z)
  | CallRetrieve _ => stamp (at_stage ev) = (retrieval, 60%Z)
  | CallAnalyze _ _ => stamp (at_stage ev) = (synthesis, 85%Z)
  end.
Proof.
  intros Hv. destruct (valid_true _ Hv) as [Ha He].
  unfold exec, completion.
  destruct (runAnalysis svc (start a)) as [c w] eqn:E.
  run_unfold_in E. rewrite Ha, He in E. simpl in E.
  repeat run_case_in E; injection E as <- <-; simpl; intros Hin Hf Hr;
    repeat (destruct Hin as [<- | Hin]; simpl in Hf, Hr;
            [try discriminate|]);
    try contradiction;
    injection Hr as <-; repeat split.
Qed.

(** Without such a rejection the run ends with the synthesizer's
    report. *)
Lemma no_fatal_rejection (svc : Services) (a : AppState) :
  valid (patientData a) = true ->
  Forall (fun ev => fatalCall (what ev) = true -> rejected ev = None)
         (calls (exec svc a)) ->
  exists r, Done (app (exec svc a)) r.
Proof.
  intros Hv. destruct (valid_true _ Hv) as [Ha He].
  unfold exec, Done.
  destruct (runAnalysis svc (start a)) as [c w] eqn:E.
  run_unfold_in E. rewrite Ha, He in E. simpl in E.
  repeat run_case_in E; injection E as <- <-; simpl; intros HF;
    repeat match goal with
           | H : Forall _ (_ :: _) |- _ => inversion_clear H
           end;
    repeat match goal with
           | H : fatalCall _ = true -> _ |- _ =>
               simpl in H; specialize (H eq_refl); try discriminate H
           end;
    eexists; repeat split.
Qed.

(** With a failing classifier the calls go on with the registry probe,
    issued in the registry stage at 45 percent. *)
Lemma classifier_rejection_continues (svc : Services) (a : AppState)
    (e : Thrown) :
  valid (patientData a) = true ->
  hasImages (patientData a) = true ->
  identifyAnatomyFromImage svc (hd_error (images (patientData a)))
    = Rejected e ->
  let w := exec svc a in
  console w = [(Txt.couldNotIdentify, e)] /\
  exists ev1 ev2 rest,
    calls w = ev1 :: ev2 :: rest /\
    what ev1 = CallIdentifyAnatomy (hd_error (images (patientData a))) /\
    rejected ev1 = Some e /\
    what ev2 = CallRegistryHealth /\
    stamp (at_stage ev2) = (registry, 45%Z) /\
    map stamp (firstn 4 (writes w)) =
      [(vision, 5); (vision, 15); (vision, 15); (registry, 45)]%Z.
Proof.
  intros Hv Hi Hc. destruct (valid_true _ Hv) as [Ha He].
  unfold exec.
  destruct (runAnalysis svc (start a)) as [c w] eqn:E.
  run_unfold_in E. rewrite Ha, He, Hi in E. simpl in E.
  rewrite Hc in E. simpl in E.
  repeat run_case_in E; injection E as <- <-; simpl;
    (split; [reflexivity|]); do 3 eexists; repeat split.
Qed.

Lemma calls_invalid (svc : Services) (a : AppState) :
  valid (patientData a) = false -> calls (exec svc a) = [].
Proof.
  intros Hv. unfold exec. destruct (valid_false _ Hv) as [Ha | [Ha He]].
  - rewrite (runAnalysis_no_age svc a Ha). reflexivity.
  - apply andb_prop in He. destruct He as [Hs Hi].
    apply negb_true_iff in Hs, Hi.
    rewrite (runAnalysis_no_evidence svc a Ha Hs Hi). reflexivity.
Qed.

(** When the probe, the retrieval and the synthesis all resolve, the run
    ends with the synthesizer's report, whatever the vision stage did. *)
Lemma all_resolved_done (svc : Services) (a : AppState)
    (h : list HealthNode) (cs : list CaseStudy.t) (r : AnalysisResult) :
  valid (patientData a) = true ->
  getRegistryHealth svc tt = Resolved h ->
  retrieveSimilarCases svc
    (constructQuery (patientData a) (visionLabel svc (patientData a)))
    = Resolved cs ->
  analyzePatientCase svc (patientData a) cs = Resolved r ->
  Done (app (exec svc a)) r.
Proof.
  intros Hv Hh Hq Hr. destruct (valid_true _ Hv) as [Ha He].
  unfold visionLabel in Hq. unfold exec, Done.
  destruct (runAnalysis svc (start a)) as [c w] eqn:E.
  run_unfold_in E. rewrite Ha, He in E. simpl in E.
  repeat run_case_in E; injection E as <- <-; simpl;
    repeat match goal with
           | H : hasImages _ = _ |- _ => rewrite H in Hq; clear H
           | H : identifyAnatomyFromImage _ _ = _ |- _ =>
               rewrite H in Hq; clear H
           end;
    first [congruence | repeat split; congruence].
Qed.

(** C3: a failing classifier does not fail the run. The failure goes to
    the console, the anatomy context stays empty (the retrieval query is
    built without a tag), the run goes on to the registry stage, and
    when the later stages resolve the report is produced. The later
    stages are the ones whose failure ends the run: the run reaches the
    results view if none of the probe, the retrieval and the synthesis
    rejects, and fails with that stage's error if one does. *)
Theorem classifier_failure_is_not_fatal
    (svc : Services) (a : AppState) (e : Thrown) :
  valid (patientData a) = true ->
  images (patientData a) <> [] ->
  identifyAnatomyFromImage svc (hd_error (images (patientData a)))
    = Rejected e ->
  let pd := patientData a in
  let w := exec svc a in
  console w = [(Txt.couldNotIdentify, e)] /\
  visionLabel svc pd = [] /\
  (exists ev1 ev2 rest,
     calls w = ev1 :: ev2 :: rest /\
     what ev1 = CallIdentifyAnatomy (hd_error (images pd)) /\
     rejected ev1 = Some e /\
     what ev2 = CallRegistryHealth /\
     stamp (at_stage ev2) = (registry, 45%Z) /\
     map stamp (firstn 4 (writes w)) =
       [(vision, 5); (vision, 15); (vision, 15); (registry, 45)]%Z) /\
  (forall ev q,
     In ev (calls w) -> what ev = CallRetrieve q ->
     q = constructQuery pd []) /\
  (forall h cs r,
     getRegistryHealth svc tt = Resolved h ->
     retrieveSimilarCases svc (constructQuery pd []) = Resolved cs ->
     analyzePatientCase svc pd cs = Resolved r ->
     Done (app w) r) /\
  (Forall (fun ev => fatalCall (what ev) = true -> rejected ev = None)
          (calls w) ->
   exists r, Done (app w) r) /\
  (forall ev e',
     In ev (calls w) -> fatalCall (what ev) = true ->
     rejected ev = Some e' ->
     step (app w) = Input /\ error (app w) = Some (errorMessage e')).
Proof.
  intros Hv Himg Hc. simpl.
  assert (Hi : hasImages (patientData a) = true).
  { destruct (hasImages (patientData a)) eqn:E; [reflexivity|].
    apply hasImages_false_iff in E. contradiction. }
  assert (Hl : visionLabel svc (patientData a) = [])
    by (unfold visionLabel; rewrite Hi, Hc; reflexivity).
  destruct (classifier_rejection_continues svc a Hv Hi Hc) as [Hcon Hcalls].
  split; [exact Hcon|]. split; [exact Hl|]. split; [exact Hcalls|].
  split; [|split; [|split]].
  - intros ev q Hin Hq. rewrite <- Hl. exact (retrieval_query svc a ev Hin Hq).
  - intros h cs r Hh Hq Hr. rewrite <- Hl in Hq.
    exact (all_resolved_done svc a Hv Hh Hq Hr).
  - exact (no_fatal_rejection svc a Hv).
  - intros ev e' Hin Hf Hr.
    destruct (fatal_rejection svc a ev Hv Hin Hf Hr) as (_ & Hs & Herr & _).
    split; assumption.
Qed.

Lemma classifier_failure_is_not_fatal_witness :
  console (exec blindServices (withPatient patientBlank)) =
    [(Txt.couldNotIdentify, ErrorObj (Js.lit "classifier offline"))] /\
  Done (app (exec blindServices (withPatient patientBlank))) sampleReport.
Proof.
  destruct (classifier_failure_is_not_fatal blindServices
              (withPatient patientBlank)
              (e := ErrorObj (Js.lit "classifier offline")))
    as (Hcon & _ & _ & _ & Hdone & _);
    [reflexivity | discriminate | reflexivity |].
  split; [exact Hcon|].
  apply (Hdone [] [] sampleReport); reflexivity.
Defined.

(** C4: when the registry probe, the retrieval or the synthesis rejects,
    the run ends in the input view with the message of the thrown error;
    the rejected call is the last one made; the progress record stays as
    it was when that call was issued (for the probe: stage registry at
    45 percent) and nothing is written after it; the form data is what it
    was before the run. *)
Theorem fatal_failure_aborts_run
    (svc : Services) (a : AppState) (ev : CallEvent) (e : Thrown) :
  In ev (calls (exec svc a)) ->
  fatalCall (what ev) = true ->
  rejected ev = Some e ->
  let w := exec svc a in
  completion svc a = Normal tt /\
  step (app w) = Input /\
  error (app w) = Some (errorMessage e) /\
  (forall m, e = ErrorObj m -> error (app w) = Some m) /\
  analysisResult (app w) = analysisResult a /\
  calls w = removelast (calls w) ++ [ev] /\
  processingStage (app w) = at_stage ev /\
  last (writes w) Stage.initial = at_stage ev /\
  (what ev = CallRegistryHealth ->
   Stage.step (processingStage (app w)) = registry /\
   Stage.progress (processingStage (app w)) = 45%Z) /\
  patientData (app w) = patientData a.
Proof.
  intros Hin Hf Hr. simpl.
  destruct (valid (patientData a)) eqn:Hv.
  - destruct (fatal_rejection svc a ev Hv Hin Hf Hr)
      as (Hc & Hs & Herr & Hres & Hlast & Hps & Hw & Hwhat).
    split; [exact Hc|]. split; [exact Hs|]. split; [exact Herr|].
    split; [intros m ->; exact Herr|]. split; [exact Hres|].
    split; [exact Hlast|]. split; [exact Hps|]. split; [exact Hw|].
    split; [|apply runAnalysis_keeps_form].
    intros Hreg. rewrite Hreg in Hwhat. rewrite Hps.
    unfold stamp in Hwhat. injection Hwhat as -> ->. split; reflexivity.
  - rewrite (calls_invalid svc a Hv) in Hin. destruct Hin.
Qed.

Lemma fatal_failure_aborts_run_witness :
  let w := exec registryDown (withPatient patientA) in
  step (app w) = Input /\
  error (app w) = Some (Js.lit "Registry unavailable") /\
  Stage.step (processingStage (app w)) = registry /\
  Stage.progress (processingStage (app w)) = 45%Z /\
  patientData (app w) = patientA.
Proof.
  assert (Hin : In probeOfC
                  (calls (exec registryDown (withPatient patientA))))
    by (vm_compute; left; reflexivity).
  assert (Hf : fatalCall (what probeOfC) = true) by reflexivity.
  assert (Hr : rejected probeOfC =
               Some (ErrorObj (Js.lit "Registry unavailable")))
    by reflexivity.
  destruct (fatal_failure_aborts_run registryDown (withPatient patientA)
              probeOfC Hin Hf Hr)
    as (_ & Hs & _ & Hmsg & _ & _ & _ & _ & Hreg & Hpd).
  cbv zeta. split; [exact Hs|]. split; [exact (Hmsg _ eq_refl)|].
  destruct (Hreg eq_refl) as [H1 H2].
  split; [exact H1|]. split; [exact H2|]. exact Hpd.
Defined.


(* ================================================================== *)
(** ** Between runs *)

Lemma runAnalysis_keeps_logs (svc : Services) :
  keeps LogsBounded (runAnalysis svc).
Proof.
  unfold runAnalysis, setError, setStep, setSystemHealth.
  apply keeps_bind; [intros w H; exact H | intros pd].
  apply keeps_if; [keeps_logs|]. apply keeps_if; [keeps_logs|].
  do 3 (apply keeps_bind; [keeps_logs | intros _]).
  apply keeps_bind; [|intros _].
  - apply keeps_logs_setProcessingStage. intros s _.
    unfold bounded. simpl. lia.
  - apply keeps_tryCatch; [apply pipeline_keeps_logs | intros e].
    keeps_logs.
Qed.

(** Whenever the Run button is there the report slot is empty; no state
    between clicks shows the analyzing view; the log is within capacity. *)
Lemma reachable_invariant (a : AppState) :
  Reachable a ->
  (step a = Input -> analysisResult a = None) /\
  step a <> Analyzing /\
  bounded (processingStage a).
Proof.
  induction 1 as [|a name value Hr IH|a files Hr IH|a svc Hr IH Hin|a Hr IH].
  - repeat split; try discriminate. unfold bounded. simpl. lia.
  - exact IH.
  - unfold handleFileChange. destruct (0 <? List.length files)%nat; exact IH.
  - destruct IH as (Hfresh & Hna & Hb). split; [|split].
    + destruct (valid (patientData a)) eqn:Hv.
      * destruct (run_trace svc a Hv) as (t & e & _ & Hend & _).
        destruct e; simpl in Hend.
        -- destruct Hend as (Hs & _). congruence.
        -- destruct Hend as (_ & _ & Hres). intros _. rewrite Hres. auto.
      * unfold exec. destruct (valid_false _ Hv) as [Ha | [Ha He]].
        -- rewrite (runAnalysis_no_age svc a Ha). simpl. auto.
        -- apply andb_prop in He. destruct He as [Hs Hi].
           apply negb_true_iff in Hs, Hi.
           rewrite (runAnalysis_no_evidence svc a Ha Hs Hi). simpl. auto.
    + destruct (valid (patientData a)) eqn:Hv.
      * destruct (run_trace svc a Hv) as (t & e & _ & Hend & _).
        destruct e; simpl in Hend; destruct Hend as (Hs & _); congruence.
      * unfold exec. destruct (valid_false _ Hv) as [Ha | [Ha He]].
        -- rewrite (runAnalysis_no_age svc a Ha). simpl. auto.
        -- apply andb_prop in He. destruct He as [Hs Hi].
           apply negb_true_iff in Hs, Hi.
           rewrite (runAnalysis_no_evidence svc a Ha Hs Hi). simpl. auto.
    + pose proof (runAnalysis_keeps_logs svc) as K.
      apply (K (start a)). split; [constructor|]. exact Hb.
  - destruct IH as (_ & _ & Hb). repeat split; try discriminate. exact Hb.
Qed.

(** C8: the log holds at most four lines whenever the progress record is
    written, and in every state the application can be in between
    clicks. An append adds the line at the end; on a log of fewer than
    four lines nothing is dropped, on a full log the oldest line goes and
    the others keep their order. *)
Theorem log_holds_at_most_four :
  (forall msg prev,
     (List.length (Stage.log (Stage.pushLog msg prev)) <= 4)%nat /\
     ((List.length (Stage.log prev) < 4)%nat ->
      Stage.log (Stage.pushLog msg prev) = Stage.log prev ++ [msg]) /\
     (List.length (Stage.log prev) = 4%nat ->
      Stage.log (Stage.pushLog msg prev) = tl (Stage.log prev) ++ [msg])) /\
  (forall svc a s,
     In s (writes (exec svc a)) ->
     (List.length (Stage.log s) <= 4)%nat) /\
  (forall a,
     Reachable a ->
     (List.length (Stage.log (processingStage a)) <= 4)%nat).
Proof.
  split; [|split].
  - intros msg prev. split; [apply pushLog_length|]. split; intros H; simpl.
    + rewrite slice_last3_short by lia. reflexivity.
    + rewrite slice_last3_full by exact H. reflexivity.
  - intros svc a s Hin.
    pose proof (runAnalysis_logs_bounded svc a) as H.
    rewrite Forall_forall in H. exact (H s Hin).
  - intros a Ha. apply (reachable_invariant Ha).
Qed.

Lemma log_holds_at_most_four_witness :
  Stage.log (Stage.pushLog (Js.lit "e")
               {| Stage.step := vision; Stage.label := [];
                  Stage.progress := 5;
                  Stage.log := [Js.lit "a"; Js.lit "b"; Js.lit "c";
                                Js.lit "d"] |})
  = [Js.lit "b"; Js.lit "c"; Js.lit "d"; Js.lit "e"] /\
  (List.length (Stage.log
     (last (writes (exec demoServices (withPatient patientA)))
           Stage.initial)) <= 4)%nat.
Proof.
  destruct log_holds_at_most_four as (Hpush & Hrun & Hidle).
  split.
  - destruct (Hpush (Js.lit "e")
                {| Stage.step := vision; Stage.label := [];
                   Stage.progress := 5;
                   Stage.log := [Js.lit "a"; Js.lit "b"; Js.lit "c";
                                 Js.lit "d"] |}) as (_ & _ & Hfull).
    apply Hfull. reflexivity.
  - apply (Hrun demoServices (withPatient patientA)).
    vm_compute. do 13 right. left. reflexivity.
Defined.


(* ================================================================== *)
(** ** What a run takes from the state before it *)

(** Past validation the handler reaches the pipeline in [bootWorld]. *)
Lemma runAnalysis_from_boot (svc : Services) (a : AppState) :
  valid (patientData a) = true ->
  runAnalysis svc (start a) =
  tryCatch (pipeline svc (patientData a))
    (fun err => setError (Some (errorMessage err)) ;; setStep Input)
    (bootWorld (patientData a) (analysisResult a)).
Proof.
  intros Hv. rewrite (runAnalysis_valid svc a Hv). reflexivity.
Qed.

Lemma runAnalysis_rejects (svc : Services) (a : AppState) :
  valid (patientData a) = false ->
  exists msg,
    runAnalysis svc (start a) = (Normal tt, start (rejectedWith a msg)) /\
    forall b, patientData b = patientData a ->
      runAnalysis svc (start b) = (Normal tt, start (rejectedWith b msg)).
Proof.
  intros Hv. destruct (valid_false _ Hv) as [Ha | [Ha He]].
  - exists Txt.noAge. split; [apply runAnalysis_no_age; exact Ha|].
    intros b Hb. apply runAnalysis_no_age. rewrite Hb. exact Ha.
  - apply andb_prop in He. destruct He as [Hs Hi].
    apply negb_true_iff in Hs, Hi. exists Txt.noEvidence.
    split; [apply runAnalysis_no_evidence; assumption|].
    intros b Hb. apply runAnalysis_no_evidence; rewrite Hb; assumption.
Qed.

(** X1: a run past validation takes nothing from the state it starts in
    but the form data and the report slot. Two states that agree on
    these give the same run: the same calls, the same writes, the same
    final state. A stale error, health list, view or progress record
    never leaks into a run. *)
Theorem run_forgets_previous_run (svc : Services) (a b : AppState) :
  valid (patientData a) = true ->
  patientData a = patientData b ->
  analysisResult a = analysisResult b ->
  exec svc a = exec svc b /\ completion svc a = completion svc b.
Proof.
  intros Hv Hpd Hres. unfold exec, completion.
  rewrite (runAnalysis_from_boot svc a Hv).
  rewrite Hpd in Hv. rewrite (runAnalysis_from_boot svc b Hv).
  rewrite Hpd, Hres. split; reflexivity.
Qed.

Lemma run_forgets_previous_run_witness :
  exec demoServices nextCase = exec demoServices (withPatient patientA).
Proof.
  apply (run_forgets_previous_run demoServices nextCase
           (withPatient patientA)); reflexivity.
Defined.

(** X2: a run that ends in the input view, rejected at validation or
    failed in a stage, leaves a state from which the next run goes exactly
    as it would have gone from the state before: the form need not be
    filled again and nothing of the failure carries over. *)
Theorem retry_runs_as_if_fresh (svc1 svc2 : Services) (a : AppState) :
  step (app (exec svc1 a)) = Input ->
  exec svc2 (app (exec svc1 a)) = exec svc2 a.
Proof.
  intros Hstep. destruct (valid (patientData a)) eqn:Hv.
  - destruct (run_trace svc1 a Hv) as (t & e & _ & Hend & _).
    destruct e; simpl in Hend.
    + destruct Hend as (Hs & _). congruence.
    + destruct Hend as (_ & _ & Hres).
      pose proof (runAnalysis_keeps_form svc1 a) as Hpd.
      unfold exec at 1 3. 
      rewrite (runAnalysis_from_boot svc2 a Hv).
      rewrite <- Hpd in Hv.
      rewrite (runAnalysis_from_boot svc2 _ Hv).
      rewrite Hpd, Hres. reflexivity.
  - destruct (runAnalysis_rejects svc1 a Hv) as (m1 & H1 & _).
    destruct (runAnalysis_rejects svc2 a Hv) as (m2 & H2 & Hb).
    unfold exec. rewrite H1. simpl. rewrite H2.
    rewrite (Hb (rejectedWith a m1) eq_refl). reflexivity.
Qed.

Lemma retry_runs_as_if_fresh_witness :
  exec demoServices (app (exec registryDown (withPatient patientA))) =
  exec demoServices (withPatient patientA).
Proof.
  apply (retry_runs_as_if_fresh registryDown demoServices
           (withPatient patientA)).
  reflexivity.
Defined.

(** X3: after a run past validation the health list is the probe's
    answer, or empty when the probe rejected; what an earlier run stored
    is gone either way. *)
Theorem health_list_is_this_runs (svc : Services) (a : AppState) :
  valid (patientData a) = true ->
  systemHealth (app (exec svc a)) =
  match getRegistryHealth svc tt with
  | Resolved h => h
  | Rejected _ => []
  end.
Proof.
  intros Hv. destruct (valid_true _ Hv) as [Ha He]. unfold exec.
  destruct (runAnalysis svc (start a)) as [c w] eqn:E.
  run_unfold_in E. rewrite Ha, He in E. simpl in E.
  repeat run_case_in E; injection E as <- <-; reflexivity.
Qed.

Lemma health_list_is_this_runs_witness :
  systemHealth
    (app (exec registryDown
            (app (exec demoServices (withPatient patientA))))) = [].
Proof.
  rewrite (health_list_is_this_runs registryDown
             (app (exec demoServices (withPatient patientA))));
    reflexivity.
Defined.

(** X4: the services are called in one fixed order, each at most once:
    the classifier first, and only when there is imagery, then the
    registry probe, the retrieval, the synthesis. The calls a run makes
    are a prefix of that plan, and a run past validation always gets as
    far as the probe. *)
Theorem calls_follow_the_plan (svc : Services) (a : AppState) :
  let made := map serviceOf (map what (calls (exec svc a))) in
  (exists rest, callPlan (patientData a) = made ++ rest) /\
  (valid (patientData a) = true -> In SvcHealth made).
Proof.
  cbv zeta. destruct (valid (patientData a)) eqn:Hv.
  - destruct (valid_true _ Hv) as [Ha He]. unfold exec, callPlan.
    destruct (runAnalysis svc (start a)) as [c w] eqn:E.
    run_unfold_in E. rewrite Ha, He in E. simpl in E.
    repeat run_case_in E; injection E as <- <-; simpl;
      repeat match goal with
             | H : hasImages _ = _ |- _ => rewrite H in *
             end;
      (split; [eexists; simpl; reflexivity | intros _; simpl; tauto]).
  - rewrite (calls_invalid svc a Hv). simpl. split; [|discriminate].
    eexists. reflexivity.
Qed.

Lemma calls_follow_the_plan_witness :
  In SvcHealth
     (map serviceOf
        (map what (calls (exec registryDown (withPatient patientB))))).
Proof.
  destruct (calls_follow_the_plan registryDown (withPatient patientB))
    as [_ H].
  apply H. reflexivity.
Defined.

(* ================================================================== *)
(** ** What a finished run shows *)

(** X5: a report is shown only when the probe, the retrieval and the
    synthesis all resolved, and it is the synthesizer's answer for the
    form data as entered and the cases the retrieval returned for the
    constructed query. *)
Theorem report_is_the_synthesizers
    (svc : Services) (a : AppState) (r : AnalysisResult) :
  valid (patientData a) = true ->
  Done (app (exec svc a)) r ->
  let pd := patientData a in
  exists h cs,
    getRegistryHealth svc tt = Resolved h /\
    retrieveSimilarCases svc (constructQuery pd (visionLabel svc pd))
      = Resolved cs /\
    analyzePatientCase svc pd cs = Resolved r.
Proof.
  intros Hv. destruct (valid_true _ Hv) as [Ha He]. unfold exec, Done.
  destruct (runAnalysis svc (start a)) as [c w] eqn:E.
  run_unfold_in E. rewrite Ha, He in E. simpl in E.
  repeat run_case_in E; injection E as <- <-; simpl;
    intros (Hs & Hr & Herr); try discriminate;
    injection Hr as <-; do 2 eexists; know_vision;
    (split; [reflexivity|]); split; eassumption.
Qed.

Lemma report_is_the_synthesizers_witness :
  exists h cs,
    getRegistryHealth demoServices tt = Resolved h /\
    retrieveSimilarCases demoServices
      (constructQuery patientB (visionLabel demoServices patientB))
      = Resolved cs /\
    analyzePatientCase demoServices patientB cs = Resolved sampleReport.
Proof.
  apply (report_is_the_synthesizers demoServices (withPatient patientB)
           (r := sampleReport)).
  - reflexivity.
  - vm_compute. repeat split.
Defined.

(** X6: when a run ends in the results view the progress record reads
    stage synthesis, label "Finalizing Report", 100 percent, and the log
    holds the last four lines of the run, the retrieval line carrying the
    number of cases returned; the earlier lines have been evicted. *)
Theorem finished_run_record
    (svc : Services) (a : AppState) (cs : list CaseStudy.t) :
  valid (patientData a) = true ->
  step (app (exec svc a)) = Results ->
  retrieveSimilarCases svc
    (constructQuery (patientData a) (visionLabel svc (patientData a)))
    = Resolved cs ->
  processingStage (app (exec svc a)) =
  {| Stage.step := synthesis;
     Stage.label := Txt.finalizing;
     Stage.progress := 100;
     Stage.log :=
       [ Txt.logQuerying;
         Txt.logRetrieved ++ Js.ofNat (List.length cs)
           ++ Txt.logCandidates;
         Txt.logReasoning;
         Txt.logDone ] |}.
Proof.
  intros Hv. destruct (valid_true _ Hv) as [Ha He].
  unfold visionLabel, exec.
  destruct (runAnalysis svc (start a)) as [c w] eqn:E.
  run_unfold_in E. rewrite Ha, He in E. simpl in E.
  repeat run_case_in E; injection E as <- <-; simpl;
    intros Hs Hq; try discriminate;
    repeat match goal with
           | H : hasImages _ = _ |- _ => rewrite H in Hq; clear H
           | H : identifyAnatomyFromImage _ _ = _ |- _ =>
               rewrite H in Hq; clear H
           end;
    simpl in Hq;
    match goal with
    | H : retrieveSimilarCases _ _ = Resolved ?x |- _ =>
        lazymatch x with
        | cs => fail
        | _ => assert (x = cs) by congruence; subst x
        end
    end;
    reflexivity.
Qed.

Lemma finished_run_record_witness :
  Stage.log (processingStage (app (exec demoServices (withPatient patientB))))
  = [ Txt.logQuerying;
      Js.lit "> Retrieval complete: 0 candidates found.";
      Txt.logReasoning;
      Txt.logDone ].
Proof.
  rewrite (finished_run_record demoServices (withPatient patientB)
             (cs := [])); reflexivity.
Defined.

(** With imagery, the first call of a run past validation is the
    classifier's, on the first image. *)
Lemma classifier_gets_first_image
    (svc : Services) (a : AppState) (f : File) (more : list File) :
  valid (patientData a) = true ->
  images (patientData a) = f :: more ->
  exists ev rest,
    calls (exec svc a) = ev :: rest /\
    what ev = CallIdentifyAnatomy (Some f).
Proof.
  intros Hv Hi. destruct (valid_true _ Hv) as [Ha He].
  assert (Him : hasImages (patientData a) = true)
    by (unfold hasImages; rewrite Hi; reflexivity).
  unfold exec.
  destruct (runAnalysis svc (start a)) as [c w] eqn:E.
  run_unfold_in E. rewrite Ha, He, Him, Hi in E. simpl in E.
  repeat run_case_in E; injection E as <- <-; simpl;
    do 2 eexists; split; reflexivity.
Qed.

(** X7: choosing files replaces the attached images, and from then on an
    age is all the form needs: the run passes validation whatever the
    symptoms field holds, and its first call hands the first chosen file
    to the classifier. An empty selection changes nothing. *)
Theorem chosen_scan_is_classified
    (svc : Services) (a : AppState) (f : File) (more : list File) :
  age (patientData a) <> [] ->
  let a' := app (snd (handleFileChange (f :: more) (start a))) in
  images (patientData a') = f :: more /\
  valid (patientData a') = true /\
  (exists ev rest,
     calls (exec svc a') = ev :: rest /\
     what ev = CallIdentifyAnatomy (Some f)) /\
  app (snd (handleFileChange [] (start a))) = a.
Proof.
  intros Hage. cbv zeta.
  assert (Hi : images (patientData
                 (app (snd (handleFileChange (f :: more) (start a)))))
               = f :: more) by reflexivity.
  assert (Hv : valid (patientData
                 (app (snd (handleFileChange (f :: more) (start a)))))
               = true).
  { unfold valid, hasImages. rewrite Hi. simpl.
    apply JsFacts.truthy_true_iff in Hage. rewrite Hage.
    apply orb_true_r. }
  split; [exact Hi|]. split; [exact Hv|]. split.
  - exact (classifier_gets_first_image svc _ Hv Hi).
  - reflexivity.
Qed.

Lemma chosen_scan_is_classified_witness :
  valid (patientData
           (app (snd (handleFileChange [scanOne; scanTwo]
                        (start formWithAge))))) = true.
Proof.
  destruct (chosen_scan_is_classified demoServices formWithAge
              scanOne [scanTwo]) as (_ & Hv & _);
    [discriminate | exact Hv].
Defined.

(* ================================================================== *)
(** ** The query is never blank *)

Lemma tagged_query_not_blank (l rest : Js.str) :
  forallb Js.isWhiteSpace (anatomyTag l ++ rest) = false.
Proof. reflexivity. Qed.

(** X8: whatever the form holds and whatever the classifier answered,
    the retrieval query has something other than white space in it; no
    run hands a blank query to the retrieval service. *)
Theorem retrieval_query_is_never_blank :
  (forall pd l, Js.trim (constructQuery pd l) <> []) /\
  (forall svc a ev q,
     In ev (calls (exec svc a)) -> what ev = CallRetrieve q ->
     Js.trim q <> []).
Proof.
  assert (H : forall pd l, Js.trim (constructQuery pd l) <> []).
  { intros pd l Hblank. apply JsFacts.trim_nil_iff in Hblank.
    unfold constructQuery in Hblank. rewrite symptoms_or_empty in Hblank.
    destruct (Js.truthy l).
    - rewrite tagged_query_not_blank in Hblank. discriminate.
    - destruct (Js.truthy (Js.trim (symptoms pd))) eqn:Ht; simpl in Hblank.
      + apply JsFacts.trim_nil_iff in Hblank. rewrite Hblank in Ht.
        discriminate.
      + discriminate. }
  split; [exact H|].
  intros svc a ev q Hin Hq. rewrite (retrieval_query svc a ev Hin Hq).
  apply H.
Qed.

Lemma retrieval_query_is_never_blank_witness :
  Js.trim (Js.lit "visual anomaly suspected malignancy") <> [].
Proof.
  destruct retrieval_query_is_never_blank as [_ H].
  apply (H blindServices (withPatient patientBlank) retrievalOfBlank).
  - vm_compute. right. right. left. reflexivity.
  - vm_compute. reflexivity.
Defined.

(* ================================================================== *)
(** ** The stepper of the analyzing view *)

(** X9: whatever the progress record holds, the stepper marks a prefix of
    the pipeline: every step before the active one is completed and not
    active, no step after it is completed or active, and so a completed
    step has all earlier steps completed. *)
Theorem stepper_marks_a_prefix (ps : Stage.t) (sid sid' : StageId) :
  ((indexOf sid stepIds < indexOf (Stage.step ps) stepIds)%Z ->
   isCompleted ps sid = true /\ isActive ps sid = false) /\
  ((indexOf (Stage.step ps) stepIds < indexOf sid stepIds)%Z ->
   isCompleted ps sid = false /\ isActive ps sid = false) /\
  (isCompleted ps sid = true ->
   (indexOf sid' stepIds < indexOf sid stepIds)%Z ->
   isCompleted ps sid' = true).
Proof.
  destruct ps as [st lbl p lg]. unfold isCompleted, isActive. simpl Stage.step.
  simpl Stage.progress.
  destruct st, sid; simpl; (split; [|split]); try (intros; lia);
    try (intros _; split; reflexivity);
    destruct sid'; simpl; intros Hc Hlt; try lia; try reflexivity.
Qed.

Lemma stepper_marks_a_prefix_witness :
  isCompleted (stampRecord (retrieval, 60%Z)) vision = true /\
  isCompleted (stampRecord (retrieval, 60%Z)) synthesis = false.
Proof.
  destruct (stepper_marks_a_prefix (stampRecord (retrieval, 60%Z))
              vision registry) as (Hbefore & _ & _).
  destruct (stepper_marks_a_prefix (stampRecord (retrieval, 60%Z))
              synthesis registry) as (_ & Hafter & _).
  split.
  - apply Hbefore. reflexivity.
  - apply Hafter. reflexivity.
Defined.

(** A run that reaches the results view ends on the synthesis stage at
    100 percent. *)
Lemma run_done_stamp (svc : Services) (a : AppState) :
  valid (patientData a) = true ->
  step (app (exec svc a)) = Results ->
  stamp (processingStage (app (exec svc a))) = (synthesis, 100%Z).
Proof.
  intros Hv. destruct (valid_true _ Hv) as [Ha He]. unfold exec.
  destruct (runAnalysis svc (start a)) as [c w] eqn:E.
  run_unfold_in E. rewrite Ha, He in E. simpl in E.
  repeat run_case_in E; injection E as <- <-; simpl; intros Hs;
    try discriminate; reflexivity.
Qed.

Lemma completedCount_of_stamp (s : Stage.t) :
  completedCount s = completedCount (stampRecord (stamp s)).
Proof. destruct s. reflexivity. Qed.

Lemma runTraces_stepper_checked :
  forallb
    (fun te =>
       nondecreasing
         (map (fun sp => completedCount (stampRecord sp)) (fst te)))
    runTraces = true.
Proof. vm_compute. reflexivity. Qed.

(** X10: during a run the stepper only advances: from one written record
    to the next the number of completed steps never goes down; and when
    the run reaches the results view all four steps are completed. *)
Theorem stepper_only_advances (svc : Services) (a : AppState) :
  let w := exec svc a in
  Sorted Z.le (map completedCount (writes w)) /\
  (valid (patientData a) = true -> step (app w) = Results ->
   forall sid, isCompleted (processingStage (app w)) sid = true).
Proof.
  cbv zeta. split.
  - destruct (valid (patientData a)) eqn:Hv.
    + destruct (run_trace svc a Hv) as (t & e & Ht & _ & Hin).
      pose proof runTraces_stepper_checked as H.
      rewrite forallb_forall in H. specialize (H _ Hin). simpl in H.
      apply nondecreasing_Sorted.
      replace (map completedCount (writes (exec svc a)))
        with (map (fun sp => completedCount (stampRecord sp)) t);
        [exact H|].
      rewrite <- Ht, map_map. apply map_ext. intros s.
      symmetry. apply completedCount_of_stamp.
    + rewrite (run_trace_invalid svc a Hv). constructor.
  - intros Hv Hs sid. pose proof (run_done_stamp svc a Hv Hs) as Hst.
    destruct (processingStage (app (exec svc a))) as [st lbl p lg].
    unfold stamp in Hst. simpl in Hst. injection Hst as -> ->.
    destruct sid; reflexivity.
Qed.

Lemma stepper_only_advances_witness :
  isCompleted (processingStage (app (exec demoServices (withPatient patientB))))
    vision = true.
Proof.
  destruct (stepper_only_advances demoServices (withPatient patientB))
    as [_ H].
  apply H; reflexivity.
Defined.

(* ================================================================== *)
(** ** The status line *)

Section KeepsAllStages.
Variable Q : Stage.t -> Prop.

Lemma keeps_all_modifyApp (f : AppState -> AppState) :
  (forall a, processingStage (f a) = processingStage a) ->
  keeps (AllStages Q) (modifyApp f).
Proof.
  intros Hf w [Hw Hc]. split; simpl; [exact Hw|]. rewrite Hf. exact Hc.
Qed.

Lemma keeps_all_setProcessingStage (f : Stage.t -> Stage.t) :
  (forall s, Q s -> Q (f s)) ->
  keeps (AllStages Q) (setProcessingStage f).
Proof.
  intros Hf w [Hw Hc]. split; simpl.
  - apply Forall_app. split; [exact Hw|]. constructor; [|constructor].
    apply Hf. exact Hc.
  - apply Hf. exact Hc.
Qed.

Lemma keeps_all_await {A} (c : Call) (o : Outcome A) :
  keeps (AllStages Q) (await c o).
Proof. intros w H. unfold await. destruct o; exact H. Qed.

Lemma keeps_all_consoleError (msg : Js.str) (e : Thrown) :
  keeps (AllStages Q) (consoleError msg e).
Proof. intros w H. exact H. Qed.
End KeepsAllStages.

Lemma prompted_literal (body : Js.str) :
  body <> [] -> prompted (62%N :: 32%N :: body).
Proof. intros H. exists body. split; [reflexivity | exact H]. Qed.

Lemma Forall_slice_last3 (P : Js.str -> Prop) (xs : list Js.str) :
  Forall P xs -> Forall P (Stage.slice_last3 xs).
Proof.
  intros H. unfold Stage.slice_last3.
  rewrite <- (firstn_skipn (List.length xs - 3) xs) in H.
  apply Forall_app in H. apply H.
Qed.

Lemma pushLog_prompted (msg : Js.str) (s : Stage.t) :
  prompted msg -> logPrompted s -> logPrompted (Stage.pushLog msg s).
Proof.
  intros Hm [_ Hall]. split; simpl.
  - intros H. apply app_eq_nil in H. destruct H as [_ H]. discriminate.
  - apply Forall_app. split.
    + apply Forall_slice_last3. exact Hall.
    + constructor; [exact Hm | constructor].
Qed.

Lemma keeps_prompt_addLog (msg : Js.str) :
  prompted msg -> keeps (AllStages logPrompted) (addLog msg).
Proof.
  intros Hm. apply keeps_all_setProcessingStage. intros s.
  apply pushLog_prompted. exact Hm.
Qed.

Ltac prompted_line :=
  first
    [ apply (prompted_literal (body := _ ++ _)); discriminate
    | apply prompted_literal; discriminate ].

Ltac keeps_prompt :=
  repeat first
    [ apply keeps_bind; [|intros ?]
    | apply keeps_tryCatch; [|intros ?]
    | apply keeps_if
    | apply keeps_ret
    | apply keeps_all_await
    | apply keeps_all_consoleError
    | apply keeps_prompt_addLog; prompted_line
    | apply keeps_all_setProcessingStage; intros ? ?; assumption
    | apply keeps_all_modifyApp; intros ?; reflexivity ].

Lemma pipeline_keeps_prompt (svc : Services) (pd : PatientData) :
  keeps (AllStages logPrompted) (pipeline svc pd).
Proof.
  unfold pipeline, visionStage, sleep, setSystemHealth, setAnalysisResult,
    setStep.
  keeps_prompt.
Qed.

Lemma runAnalysis_writes_prompted (svc : Services) (a : AppState) :
  Forall logPrompted (writes (exec svc a)).
Proof.
  destruct (valid (patientData a)) eqn:Hv.
  - unfold exec. rewrite (runAnalysis_from_boot svc a Hv).
    match goal with
    | |- Forall _ (writes (snd (tryCatch ?b ?h ?w))) =>
        enough (H : AllStages logPrompted (snd (tryCatch b h w)))
          by apply H;
        apply (keeps_tryCatch (I := AllStages logPrompted))
    end.
    + apply pipeline_keeps_prompt.
    + intros e. unfold setError, setStep. keeps_prompt.
    + assert (Hb : logPrompted bootStage).
      { split; [discriminate|]. constructor; [|constructor].
        prompted_line. }
      split; simpl; [constructor; [exact Hb | constructor] | exact Hb].
  - rewrite (run_trace_invalid svc a Hv). constructor.
Qed.

Lemma lastLine_snoc (l : list Js.str) (m : Js.str) :
  lastLine (l ++ [m]) = Some m.
Proof.
  unfold lastLine. destruct (l ++ [m]) eqn:E.
  - destruct l; discriminate.
  - rewrite <- E. rewrite length_app. simpl.
    replace (List.length l + 1 - 1)%nat with (List.length l) by lia.
    rewrite nth_error_app2 by lia. rewrite Nat.sub_diag. reflexivity.
Qed.

(** X11: the status line is "Initializing..." when the log is empty, and
    also when its last line is nothing but the "> " prompt. In every
    record a run writes it is the latest log line without its prompt, and
    not empty: the fallback never shows during a run. *)
Theorem status_line_is_last_log_line :
  (forall ps, Stage.log ps = [] -> statusLine ps = txtInitializing) /\
  (forall ps older,
     Stage.log ps = older ++ [Js.lit "> "] ->
     statusLine ps = txtInitializing) /\
  (forall svc a s,
     In s (writes (exec svc a)) ->
     62%N :: 32%N :: statusLine s = last (Stage.log s) [] /\
     statusLine s <> []).
Proof.
  split; [|split].
  - intros ps H. unfold statusLine. rewrite H. reflexivity.
  - intros ps older H. unfold statusLine. rewrite H, lastLine_snoc.
    reflexivity.
  - intros svc a s Hin.
    pose proof (runAnalysis_writes_prompted svc a) as H.
    rewrite Forall_forall in H. destruct (H s Hin) as [Hne Hall].
    destruct (exists_last Hne) as (older & m & Hlog).
    rewrite Hlog in Hall. apply Forall_app in Hall.
    destruct Hall as [_ Hm]. inversion_clear Hm as [|? ? Hp _].
    destruct Hp as (body & -> & Hbody).
    unfold statusLine. rewrite Hlog, lastLine_snoc, last_last. simpl.
    apply JsFacts.truthy_true_iff in Hbody. rewrite Hbody.
    split; [reflexivity|]. apply JsFacts.truthy_true_iff. exact Hbody.
Qed.

Lemma status_line_is_last_log_line_witness :
  statusLine
    (last (writes (exec demoServices (withPatient patientB))) Stage.initial)
  <> [].
Proof.
  destruct status_line_is_last_log_line as (_ & _ & H).
  apply (H demoServices (withPatient patientB)).
  vm_compute. do 15 right. left. reflexivity.
Defined.

(* ================================================================== *)
(** ** Case names in the scatter chart *)

Lemma split_not_nil (sep : N) (s : Js.str) : split sep s <> [].
Proof.
  destruct s as [|c r]; simpl; [discriminate|].
  destruct (c =? sep)%N; [discriminate|].
  destruct (split sep r); discriminate.
Qed.

Lemma join_split (sep : N) (s : Js.str) : join sep (split sep s) = s.
Proof.
  induction s as [|c r IH]; [reflexivity|]. simpl.
  destruct (N.eqb_spec c sep) as [->|Hne].
  - pose proof (split_not_nil sep r) as Hnn.
    simpl. destruct (split sep r) as [|p ps]; [contradiction|].
    simpl in *. rewrite IH. reflexivity.
  - pose proof (split_not_nil sep r) as Hnn.
    destruct (split sep r) as [|p ps]; [contradiction|].
    simpl in *. destruct ps; rewrite <- IH; reflexivity.
Qed.

Lemma split_pieces_clean (sep : N) (s : Js.str) :
  Forall (fun piece => ~ In sep piece) (split sep s).
Proof.
  induction s as [|c r IH]; simpl.
  - constructor; [intros [] | constructor].
  - destruct (N.eqb_spec c sep) as [->|Hne].
    + constructor; [intros [] | exact IH].
    + pose proof (split_not_nil sep r) as Hnn.
      destruct (split sep r) as [|p ps]; [contradiction|].
      inversion_clear IH as [|? ? Hp Hps].
      constructor; [|exact Hps].
      intros [H|H]; [congruence | exact (Hp H)].
Qed.

Lemma join_snoc (sep : N) (front : list Js.str) (seg : Js.str) :
  front <> [] ->
  join sep (front ++ [seg]) = join sep front ++ sep :: seg.
Proof.
  induction front as [|p ps IH]; intros Hne; [contradiction|].
  destruct ps as [|q qs]; [reflexivity|].
  change (join sep ((p :: q :: qs) ++ [seg]))
    with (p ++ sep :: join sep ((q :: qs) ++ [seg])).
  rewrite IH by discriminate.
  change (join sep (p :: q :: qs)) with (p ++ sep :: join sep (q :: qs)).
  rewrite <- app_assoc. reflexivity.
Qed.

(** X12: splitting at hyphens and joining with hyphens gives the id
    back, and no piece holds a hyphen. So the name of a case in the
    scatter chart is "Case " followed by what comes after the last hyphen
    of its id, or by the whole id when it has no hyphen; [pop] never
    meets an empty array. *)
Theorem scatter_name_is_last_segment :
  (forall sep s, join sep (split sep s) = s) /\
  (forall c,
     exists seg,
       scatterName c = Js.lit "Case " ++ seg /\
       ~ In hyphen seg /\
       (CaseStudy.id c = seg \/
        exists before, CaseStudy.id c = before ++ hyphen :: seg)).
Proof.
  split; [exact join_split|].
  intros c. unfold scatterName.
  pose proof (split_not_nil hyphen (CaseStudy.id c)) as Hnn.
  pose proof (split_pieces_clean hyphen (CaseStudy.id c)) as Hclean.
  pose proof (join_split hyphen (CaseStudy.id c)) as Hjoin.
  destruct (exists_last Hnn) as (front & seg & Hsplit).
  rewrite Hsplit in *. exists seg.
  assert (Hpop : pop (front ++ [seg]) = Some seg).
  { unfold pop. destruct (front ++ [seg]) eqn:E.
    - destruct front; discriminate.
    - rewrite <- E, last_last. reflexivity. }
  rewrite Hpop. split; [reflexivity|]. split.
  - apply Forall_app in Hclean. destruct Hclean as [_ H].
    inversion_clear H. assumption.
  - destruct front as [|p ps].
    + left. symmetry. exact Hjoin.
    + right. exists (join hyphen (p :: ps)).
      rewrite <- Hjoin. apply join_snoc. discriminate.
Qed.

(* ================================================================== *)
(** ** [SafeRegistryImage] *)

(** X13: however the load and error events of the image arrive, the
    component never holds both the error flag and the loading flag; after
    the first event the pulse overlay is gone for good; and once an error
    has arrived the placeholder stays, whatever follows. *)
Theorem image_placeholder_is_final (events : list ImageEvent) :
  let s := fold_left onImageEvent events imageMounted in
  (img_error s = true -> img_loading s = false) /\
  (events <> [] -> imageView s <> ImageBehindPulse) /\
  (In ImgError events -> imageView s = ImageUnavailable) /\
  (~ In ImgError events -> events <> [] -> imageView s = ImageShown).
Proof.
  cbv zeta. induction events as [|e evs IH] using rev_ind.
  - simpl. repeat split; try discriminate; try contradiction.
  - rewrite fold_left_app. simpl.
    destruct IH as (Hinv & Hpulse & Herr & Hok).
    set (s := fold_left onImageEvent evs imageMounted) in *.
    unfold imageView in *.
    destruct e; simpl.
    + repeat split; try reflexivity; try discriminate.
      intros Hno. exfalso. apply Hno. apply in_or_app. right. left.
      reflexivity.
    + split; [reflexivity|]. split; [|split].
      * intros _. destruct (img_error s); discriminate.
      * intros Hin. apply in_app_or in Hin.
        destruct Hin as [Hin | [Hin | []]]; [|discriminate].
        specialize (Herr Hin). destruct (img_error s); [reflexivity|].
        destruct (img_loading s); discriminate.
      * intros Hno _.
        destruct (img_error s) eqn:Ee; [|reflexivity]. exfalso.
        destruct evs as [|e0 evs0]; [discriminate|].
        assert (Hno' : ~ In ImgError (e0 :: evs0))
          by (intros H; apply Hno; apply in_or_app; left; exact H).
        specialize (Hok Hno' ltac:(discriminate)). discriminate.
Qed.

Lemma image_placeholder_is_final_witness :
  imageView (fold_left onImageEvent [ImgLoad; ImgError; ImgLoad] imageMounted)
  = ImageUnavailable.
Proof.
  destruct (image_placeholder_is_final [ImgLoad; ImgError; ImgLoad])
    as (_ & _ & H & _).
  apply H. right. left. reflexivity.
Defined.

(* ================================================================== *)
(** ** The results view and "New Case" *)

Lemma reachable_results (a : AppState) :
  Reachable a ->
  step a = Results ->
  error a = None /\
  (exists r, analysisResult a = Some r) /\
  stamp (processingStage a) = (synthesis, 100%Z).
Proof.
  induction 1 as [|a name value Hr IH|a files Hr IH|a svc Hr IH Hin|a Hr IH].
  - discriminate.
  - exact IH.
  - unfold handleFileChange. destruct (0 <? List.length files)%nat; exact IH.
  - intros Hs. destruct (valid (patientData a)) eqn:Hv.
    + destruct (run_trace svc a Hv) as (t & e & _ & Hend & _).
      destruct e; simpl in Hend.
      * destruct Hend as (_ & He & Hres).
        split; [exact He|]. split; [exact Hres|].
        exact (run_done_stamp svc a Hv Hs).
      * destruct Hend as (Hs' & _). congruence.
    + exfalso. destruct (runAnalysis_rejects svc a Hv) as (m & Hm & _).
      unfold exec in Hs. rewrite Hm in Hs. simpl in Hs. congruence.
  - discriminate.
Qed.


Lemma demoResults_reachable : Reachable demoResults.
Proof.
  unfold demoResults, demoForm.
  apply reach_run; [|reflexivity].
  apply reach_input. apply reach_input. apply reach_mount.
Qed.


(** X15: "New Case" from the results view gives back the form the
    application mounted with: input view, empty fields, no report, no
    health list and no error message; only the progress record is not
    reset and still reads 100 percent. A click on Run right after it is
    rejected for the missing age. *)
Theorem new_case_restores_the_form (a : AppState) :
  Reachable a ->
  step a = Results ->
  let fresh := app (snd (reset (start a))) in
  fresh =
    {| step := Input; patientData := emptyPatient; analysisResult := None;
       error := None; systemHealth := [];
       processingStage := processingStage a |} /\
  Stage.progress (processingStage fresh) = 100%Z /\
  forall svc,
    error (app (exec svc fresh)) = Some Txt.noAge /\
    calls (exec svc fresh) = [].
Proof.
  intros Hr Hs. cbv zeta.
  destruct (reachable_results Hr Hs) as (He & _ & Hst).
  assert (Hfresh : app (snd (reset (start a))) =
    {| step := Input; patientData := emptyPatient; analysisResult := None;
       error := None; systemHealth := [];
       processingStage := processingStage a |}).
  { unfold reset, setStep, setAnalysisResult, setPatientData,
      setSystemHealth, modifyApp, bind, start. simpl. rewrite He.
    reflexivity. }
  split; [exact Hfresh|]. rewrite Hfresh. split.
  - simpl. unfold stamp in Hst. congruence.
  - intros svc. unfold exec. rewrite runAnalysis_no_age by reflexivity.
    split; reflexivity.
Qed.

Lemma new_case_restores_the_form_witness :
  app (snd (reset (start demoResults))) =
    {| step := Input; patientData := emptyPatient; analysisResult := None;
       error := None; systemHealth := [];
       processingStage := processingStage demoResults |}.
Proof.
  destruct (new_case_restores_the_form demoResults_reachable)
    as (H & _); [reflexivity | exact H].
Defined.
